(** * US accidents choropleth (script.js): aggregation, colour scale, selection

    A shallow embedding of [src/script.js]: the row parser, the per-state
    aggregation [buildStateSummary], the state-code extraction from GeoJSON
    features, the colour-scale derivation [updateColorScale], the legend, the
    metric lookup [getMetricValue] and the click / metric-change handlers.

    JavaScript numbers are IEEE-754 binary64 values.  The program is written
    once over an interface [JsNumber] of the operations the script applies to
    numbers, and instantiated twice: with the kernel's primitive floats
    ([binary64], what the browser computes) and with exact rationals extended
    by an undefined element ([exact], arithmetic without rounding or
    overflow).  Facts that depend on rounding are proved for [binary64] from
    the kernel's specification of the IEEE-754 operations. *)

From Stdlib Require Import Bool List ZArith Lia Ascii String.
From Stdlib Require Import QArith Qcanon Floats DecimalString Permutation.
Import ListNotations.

Set Warnings "-inexact-float,-notation-for-abbreviation,-register-all".

Declare Scope js_scope.
Delimit Scope js_scope with js.

(** ** Numbers *)

(** The operations of the script on numbers: the literals it uses, the four
    arithmetic operators, the comparisons [<] and [<=] (the script's [a > b]
    is [b < a], and [a >= b] is [b <= a]), strict equality [===] and
    [Number.isFinite]. *)
Class JsNumber (num : Type) : Type := {
  num_zero : num;
  num_one : num;
  num_0_05 : num;
  num_0_1 : num;
  num_add : num -> num -> num;
  num_sub : num -> num -> num;
  num_mul : num -> num -> num;
  num_div : num -> num -> num;
  num_ltb : num -> num -> bool;
  num_leb : num -> num -> bool;
  num_eqb : num -> num -> bool;
  isFinite : num -> bool
}.

Notation "x + y" := (num_add x y) : js_scope.
Notation "x - y" := (num_sub x y) : js_scope.
Notation "x * y" := (num_mul x y) : js_scope.
Notation "x / y" := (num_div x y) : js_scope.
Notation "x <? y" := (num_ltb x y) : js_scope.
Notation "x <=? y" := (num_leb x y) : js_scope.
Notation "x =? y" := (num_eqb x y) : js_scope.

(** A number is not NaN exactly when it compares equal to itself. *)
Definition is_number {num} `{JsNumber num} (x : num) : bool := (x =? x)%js.

(** Truthiness of a number: [0], [-0] and NaN are falsy. *)
Definition truthy {num} `{JsNumber num} (x : num) : bool :=
  is_number x && negb (x =? num_zero)%js.

(** The order facts about JavaScript's comparisons that the proofs use.  They
    hold for binary64 and for exact arithmetic; none of them speaks about
    rounding. *)
Class JsNumberOrder (num : Type) `{JsNumber num} : Prop := {
  ltb_leb : forall x y : num, (x <? y)%js = true -> (x <=? y)%js = true;
  eqb_leb : forall x y : num, (x =? y)%js = true -> (x <=? y)%js = true;
  eqb_sym : forall x y : num, (x =? y)%js = (y =? x)%js;
  eqb_not_ltb : forall x y : num, (x =? y)%js = true -> (x <? y)%js = false;
  leb_cases : forall x y : num,
    (x <=? y)%js = true -> (x <? y)%js = true \/ (x =? y)%js = true;
  leb_number_l : forall x y : num, (x <=? y)%js = true -> (x <=? x)%js = true;
  leb_number_r : forall x y : num, (x <=? y)%js = true -> (y <=? y)%js = true;
  leb_number : forall x : num, (x <=? x)%js = (x =? x)%js;
  leb_total : forall x y : num,
    (x <=? x)%js = true -> (y <=? y)%js = true ->
    (x <? y)%js = false -> (y <=? x)%js = true;
  leb_trans : forall x y z : num,
    (x <=? y)%js = true -> (y <=? z)%js = true -> (x <=? z)%js = true;
  finite_number : forall x : num, isFinite x = true -> (x <=? x)%js = true;
  zero_finite : isFinite (num_zero : num) = true;
  one_not_zero : ((num_one : num) =? num_zero)%js = false;
  add_nonneg : forall x y : num,
    (num_zero <=? x)%js = true -> (num_zero <=? y)%js = true ->
    (num_zero <=? x + y)%js = true
}.

(** *** binary64: the numbers of the browser *)

#[export] Instance binary64 : JsNumber float := {
  num_zero := 0%float;
  num_one := 1%float;
  num_0_05 := 0.05%float;
  num_0_1 := 0.1%float;
  num_add := PrimFloat.add;
  num_sub := PrimFloat.sub;
  num_mul := PrimFloat.mul;
  num_div := PrimFloat.div;
  num_ltb := PrimFloat.ltb;
  num_leb := PrimFloat.leb;
  num_eqb := PrimFloat.eqb;
  isFinite := PrimFloat.is_finite
}.

(** *** Exact arithmetic *)

(** A rational, or the undefined result of a division by zero (which stands
    for binary64's NaN and infinities). *)
Inductive exact : Type :=
| Exact (q : Qc)
| Undefined.

Definition exact_lift2 (f : Qc -> Qc -> Qc) (x y : exact) : exact :=
  match x, y with
  | Exact a, Exact b => Exact (f a b)
  | _, _ => Undefined
  end.

Definition exact_div (x y : exact) : exact :=
  match x, y with
  | Exact a, Exact b =>
      match (b ?= Q2Qc 0)%Qc with
      | Eq => Undefined
      | _ => Exact (a / b)%Qc
      end
  | _, _ => Undefined
  end.

Definition exact_cmp (ok : comparison -> bool) (x y : exact) : bool :=
  match x, y with
  | Exact a, Exact b => ok (a ?= b)%Qc
  | _, _ => false
  end.

(** The same exact number. *)
Definition exact_same (x y : exact) : bool :=
  match x, y with
  | Exact a, Exact b => match (a ?= b)%Qc with Eq => true | _ => false end
  | Undefined, Undefined => true
  | _, _ => false
  end.

Definition cmp_lt (c : comparison) : bool :=
  match c with Lt => true | _ => false end.
Definition cmp_le (c : comparison) : bool :=
  match c with Gt => false | _ => true end.
Definition cmp_eq (c : comparison) : bool :=
  match c with Eq => true | _ => false end.

#[export] Instance exact_number : JsNumber exact := {
  num_zero := Exact (Q2Qc 0);
  num_one := Exact (Q2Qc 1);
  num_0_05 := Exact (Q2Qc (1 # 20));
  num_0_1 := Exact (Q2Qc (1 # 10));
  num_add := exact_lift2 Qcplus;
  num_sub := exact_lift2 Qcminus;
  num_mul := exact_lift2 Qcmult;
  num_div := exact_div;
  num_ltb := exact_cmp cmp_lt;
  num_leb := exact_cmp cmp_le;
  num_eqb := exact_cmp cmp_eq;
  isFinite := fun x => match x with Exact _ => true | Undefined => false end
}.

(** ** Strings *)

(** State codes are ASCII; [String.prototype.toUpperCase] is modelled on the
    bytes of the string: the letters [a]..[z] are mapped to [A]..[Z], every
    other byte is kept. *)
Definition upper_ascii (c : ascii) : ascii :=
  let n := nat_of_ascii c in
  if (97 <=? n)%nat && (n <=? 122)%nat then ascii_of_nat (n - 32) else c.

Fixpoint toUpperCase (s : string) : string :=
  match s with
  | EmptyString => EmptyString
  | String c r => String (upper_ascii c) (toUpperCase r)
  end.

(** [!s] on a string: only the empty string is falsy. *)
Definition is_empty (s : string) : bool :=
  match s with EmptyString => true | String _ _ => false end.

(** The ASCII white space and line terminators that [trim] removes. *)
Definition is_space (c : ascii) : bool :=
  let n := nat_of_ascii c in
  (n =? 32)%nat || ((9 <=? n)%nat && (n <=? 13)%nat).

Fixpoint trimStart (s : string) : string :=
  match s with
  | EmptyString => EmptyString
  | String c r => if is_space c then trimStart r else s
  end.

Fixpoint trimEnd (s : string) : string :=
  match s with
  | EmptyString => EmptyString
  | String c r =>
      match trimEnd r with
      | EmptyString => if is_space c then EmptyString else String c EmptyString
      | r' => String c r'
      end
  end.

Definition trim (s : string) : string := trimEnd (trimStart s).

(** [s || ""] for a string that may be undefined. *)
Definition or_empty (s : option string) : string :=
  match s with Some x => x | None => EmptyString end.

(** ** JavaScript [Map] with string keys

    A [Map] iterates in insertion order and [set] on a present key keeps its
    position; it is an association list without duplicate keys. *)
Module JsMap.

Definition t (V : Type) : Type := list (string * V).

Definition empty {V} : t V := [].

Fixpoint get {V} (m : t V) (k : string) : option V :=
  match m with
  | [] => None
  | (k', v) :: r => if String.eqb k' k then Some v else get r k
  end.

Definition has {V} (m : t V) (k : string) : bool :=
  match get m k with Some _ => true | None => false end.

Fixpoint set {V} (m : t V) (k : string) (v : V) : t V :=
  match m with
  | [] => [(k, v)]
  | (k', v') :: r =>
      if String.eqb k' k then (k', v) :: r else (k', v') :: set r k v
  end.

Definition keys {V} (m : t V) : list string := map fst m.

Definition values {V} (m : t V) : list V := map snd m.

(** [m.forEach] with a callback that rewrites each entry in place. *)
Definition map_values {V W} (f : V -> W) (m : t V) : t W :=
  map (fun kv => (fst kv, f (snd kv))) m.

End JsMap.

(** ** The program *)

Section Program.

Context {num : Type} `{JsNumber num}.

Local Open Scope string_scope.

(** *** Values and records *)

(** The values a CSV field, a record field or a GeoJSON property can hold:
    the primitives, and the arrays and objects of a parsed JSON text (an
    object is the list of its own properties). *)
Inductive JsValue : Type :=
| JsUndefined
| JsNull
| JsBoolean (b : bool)
| JsNumberValue (n : num)
| JsString (s : string)
| JsArray (items : list JsValue)
| JsObject (fields : list (string * JsValue)).

Definition typeof (v : JsValue) : string :=
  match v with
  | JsUndefined => "undefined"
  | JsNull => "object"
  | JsBoolean _ => "boolean"
  | JsNumberValue _ => "number"
  | JsString _ => "string"
  | JsArray _ => "object"
  | JsObject _ => "object"
  end.

(** A string that may be absent, as a value. *)
Definition string_value (s : option string) : JsValue :=
  match s with Some x => JsString x | None => JsUndefined end.

(** A row as [d3.csv] hands it to the row parser: every column of the
    header is a string; a column that the file lacks is undefined. *)
Record CsvRow : Type := {
  csv_state : option string;
  csv_year_month : option string;
  csv_year : option string;
  csv_count_accidents : option string;
  csv_avg_severity : option string
}.

Record AccidentRecord : Type := {
  state : option string;
  year_month : option string;
  year : num;
  count_accidents : num;
  avg_severity : num
}.

(** The record as the object the parser returns: its keys in order. *)
Definition record_fields (r : AccidentRecord) : list (string * JsValue) :=
  [ ("state", string_value (state r));
    ("year_month", string_value (year_month r));
    ("year", JsNumberValue (year r));
    ("count_accidents", JsNumberValue (count_accidents r));
    ("avg_severity", JsNumberValue (avg_severity r)) ].

Definition row_fields (d : CsvRow) : list (string * JsValue) :=
  [ ("state", string_value (csv_state d));
    ("year_month", string_value (csv_year_month d));
    ("year", string_value (csv_year d));
    ("count_accidents", string_value (csv_count_accidents d));
    ("avg_severity", string_value (csv_avg_severity d)) ].

(** The keys of an object whose value has the given [typeof]. *)
Definition keys_of_type (ty : string) (o : list (string * JsValue))
  : list string :=
  map fst (filter (fun kv => String.eqb (typeof (snd kv)) ty) o).

(** *** Row parser *)

Section Parser.

(** Unary plus on a CSV field ([ToNumber] of a string or of undefined). *)
Variable toNumber : option string -> num.

Definition stateMonthParserFn (d : CsvRow) : AccidentRecord :=
    {| state := csv_state d;
       year_month := csv_year_month d;
       year := toNumber (csv_year d);
       count_accidents := toNumber (csv_count_accidents d);
       avg_severity := toNumber (csv_avg_severity d) |}.

End Parser.

(** *** Aggregation *)

(** An entry while the records are being summed. *)
Record Entry : Type := {
  entry_totalCount : num;
  weightedSeverity : num
}.

(** An entry of the finished summary. *)
Record StateSummary : Type := {
  totalCount : num;
  avgSeverity : num
}.

Definition new_entry : Entry :=
  {| entry_totalCount := num_zero; weightedSeverity := num_zero |}.

(** The body of [data.forEach] in [buildStateSummary]. *)
Definition accumulate (summary : JsMap.t Entry) (d : AccidentRecord)
  : JsMap.t Entry :=
  let code := toUpperCase (or_empty (state d)) in
  if is_empty code then summary
  else
    let entry :=
      match JsMap.get summary code with
      | Some e => e
      | None => new_entry
      end in
    JsMap.set summary code
      {| entry_totalCount := (entry_totalCount entry + count_accidents d)%js;
         weightedSeverity :=
           (weightedSeverity entry + avg_severity d * count_accidents d)%js |}.

(** The body of [summary.forEach]: the average replaces the weighted sum. *)
Definition finish (entry : Entry) : StateSummary :=
  {| totalCount := entry_totalCount entry;
     avgSeverity :=
       if (num_zero <? entry_totalCount entry)%js
       then (weightedSeverity entry / entry_totalCount entry)%js
       else num_zero |}.

Definition buildStateSummary (data : list AccidentRecord)
  : JsMap.t StateSummary :=
  JsMap.map_values finish (fold_left accumulate data JsMap.empty).

(** *** State code of a GeoJSON feature *)

Record Feature : Type := {
  properties : option (list (string * JsValue))
}.

Fixpoint property (props : list (string * JsValue)) (k : string) : JsValue :=
  match props with
  | [] => JsUndefined
  | (k', v) :: r => if String.eqb k' k then v else property r k
  end.

Definition code_candidates : list string :=
  [ "STUSPS"; "STUSPS10"; "state_code"; "STATE"; "CODE"; "code"; "postal";
    "postalCode" ].

(** [typeof c === "string" && c.trim().length] *)
Definition usable_code (c : JsValue) : bool :=
  match c with
  | JsString s => negb (is_empty (trim s))
  | _ => false
  end.

Definition extractStateCode (feature : Feature) : string :=
  let props := match properties feature with Some p => p | None => [] end in
  let candidates := map (property props) code_candidates in
  trim match find usable_code candidates with
       | Some (JsString s) => s
       | _ => ""
       end.

(** *** Metric lookup *)

Definition getMetricValue (stateSummary : JsMap.t StateSummary)
    (currentMetric : string) (stateCode : string) : num :=
  match JsMap.get stateSummary (toUpperCase stateCode) with
  | None => num_zero
  | Some stats =>
      if String.eqb currentMetric "count" then totalCount stats
      else avgSeverity stats
  end.

(** *** Colour scale *)

(** [d3.extent] on an array of numbers: values that are not comparable with
    themselves (NaN) are skipped, [None] stands for [[undefined, undefined]]. *)
Fixpoint extent_from (min max : num) (values : list num) : num * num :=
  match values with
  | [] => (min, max)
  | value :: rest =>
      extent_from (if (value <? min)%js then value else min)
                  (if (max <? value)%js then value else max) rest
  end.

Fixpoint extent (values : list num) : option (num * num) :=
  match values with
  | [] => None
  | value :: rest =>
      if (value <=? value)%js then Some (extent_from value value rest)
      else extent rest
  end.

(** [Number.isFinite(raw) ? raw : fallback], where [raw] may be undefined. *)
Definition finite_or (fallback : num) (raw : option num) : num :=
  match raw with
  | Some v => if isFinite v then v else fallback
  | None => fallback
  end.

Inductive Interpolator : Type := interpolateReds | interpolateBlues.

(** [d3.scaleSequential(interpolator).domain([lower, upper])] *)
Record ColorScale : Type := {
  interpolator : Interpolator;
  domain : num * num
}.

Record LegendRange : Type := {
  min : num;
  max : num
}.

(** [d.avgSeverity || 0] *)
Definition severity_or_zero (d : StateSummary) : num :=
  if truthy (avgSeverity d) then avgSeverity d else num_zero.

(** The scale and the legend range that [updateColorScale] assigns. *)
Definition scale_for (stateSummary : JsMap.t StateSummary)
    (currentMetric : string) : ColorScale * LegendRange :=
  if String.eqb currentMetric "count" then
    let counts := map totalCount (JsMap.values stateSummary) in
    let raw := extent counts in
    let minCount := finite_or num_zero (option_map fst raw) in
    let maxCount := finite_or num_one (option_map snd raw) in
    let domainMax :=
      if (maxCount =? minCount)%js then (minCount + num_one)%js
      else maxCount in
    ({| interpolator := interpolateReds; domain := (minCount, domainMax) |},
     {| min := minCount; max := maxCount |})
  else
    let severities := map severity_or_zero (JsMap.values stateSummary) in
    let raw := extent severities in
    let minSev := finite_or num_zero (option_map fst raw) in
    let maxSev := finite_or num_one (option_map snd raw) in
    let padding := num_0_05 in
    let domainMin := (minSev - padding)%js in
    let domainMax := (maxSev + padding)%js in
    let domainMax :=
      if (domainMax <=? domainMin)%js then (domainMin + num_0_1)%js
      else domainMax in
    ({| interpolator := interpolateBlues; domain := (domainMin, domainMax) |},
     {| min := minSev; max := maxSev |}).

End Program.

Arguments JsValue : clear implicits.
Arguments AccidentRecord : clear implicits.
Arguments Entry : clear implicits.
Arguments StateSummary : clear implicits.
Arguments Feature : clear implicits.
Arguments ColorScale : clear implicits.
Arguments LegendRange : clear implicits.

(** ** The page: module-level state and the handlers that change it *)

Module Ui.

Section Page.

Context {num : Type} `{JsNumber num}.

Local Open Scope string_scope.

(** [d3.format(",")] and [d3.format(".2f")]: the formatters of the d3
    library, which is not part of the script. *)
Variable formatCount : num -> string.
Variable formatSeverity : num -> string.

(** A fill colour: the colour scale applied to a metric value. *)
Record Paint : Type := {
  paint_scale : ColorScale num;
  paint_value : num
}.

(** One [path.state] element of the map with the feature bound to it. *)
Record Polygon : Type := {
  datum : Feature num;
  fill : option Paint;
  selected : bool
}.

(** The legend elements of the document. *)
Record Legend : Type := {
  label_low : string;
  label_high : string;
  gradient : string;
  legend_min_text : string;
  legend_max_text : string
}.

(** The module-level variables of the script and the parts of the document
    it writes. *)
Record Page : Type := {
  stateSummary : JsMap.t (StateSummary num);
  selectedState : string;
  currentMetric : string;
  legendRange : LegendRange num;
  colorScale : option (ColorScale num);
  metric_description : string;
  legend : Legend;
  polygons : list Polygon
}.

(** The state when the script starts; the document's texts are not set yet. *)
Definition initial : Page :=
  {| stateSummary := JsMap.empty;
     selectedState := "CA";
     currentMetric := "count";
     legendRange := {| min := num_zero; max := num_one |};
     colorScale := None;
     metric_description := "";
     legend := {| label_low := ""; label_high := ""; gradient := "";
                  legend_min_text := ""; legend_max_text := "" |};
     polygons := [] |}.

Definition updateMetricDescription (metric : string) (pg : Page) : Page :=
  {| stateSummary := stateSummary pg;
     selectedState := selectedState pg;
     currentMetric := currentMetric pg;
     legendRange := legendRange pg;
     colorScale := colorScale pg;
     metric_description :=
       if String.eqb metric "count"
       then "Total number of reported accidents in each state between 2016 and 2023."
       else "Average severity of accidents in each state (1 = minor, 4 = most severe).";
     legend := legend pg;
     polygons := polygons pg |}.

Definition updateColorScale (pg : Page) : Page :=
  let (scale, range) :=
    scale_for (stateSummary pg) (currentMetric pg) in
  {| stateSummary := stateSummary pg;
     selectedState := selectedState pg;
     currentMetric := currentMetric pg;
     legendRange := range;
     colorScale := Some scale;
     metric_description := metric_description pg;
     legend := legend pg;
     polygons := polygons pg |}.

Definition updateLegend (pg : Page) : Page :=
  let isCount := String.eqb (currentMetric pg) "count" in
  let minVal := min (legendRange pg) in
  let maxVal := max (legendRange pg) in
  {| stateSummary := stateSummary pg;
     selectedState := selectedState pg;
     currentMetric := currentMetric pg;
     legendRange := legendRange pg;
     colorScale := colorScale pg;
     metric_description := metric_description pg;
     legend :=
       {| label_low := if isCount then "Low accidents" else "Lower severity";
          label_high := if isCount then "High accidents" else "Higher severity";
          gradient :=
            if isCount then "linear-gradient(90deg, #fee2e2, #b91c1c)"
            else "linear-gradient(90deg, #e0f2fe, #1d4ed8)";
          legend_min_text :=
            if isCount then formatCount minVal else formatSeverity minVal;
          legend_max_text :=
            if isCount then formatCount maxVal else formatSeverity maxVal |};
     polygons := polygons pg |}.

(** [colorScale(getMetricValue(extractStateCode(d)))] *)
Definition fill_of (pg : Page) (d : Feature num) : option Paint :=
  match colorScale pg with
  | Some scale =>
      Some {| paint_scale := scale;
              paint_value :=
                getMetricValue (stateSummary pg) (currentMetric pg)
                  (extractStateCode d) |}
  | None => None
  end.

Definition with_polygons (ps : list Polygon) (pg : Page) : Page :=
  {| stateSummary := stateSummary pg;
     selectedState := selectedState pg;
     currentMetric := currentMetric pg;
     legendRange := legendRange pg;
     colorScale := colorScale pg;
     metric_description := metric_description pg;
     legend := legend pg;
     polygons := ps |}.

Definition repaint (pg : Page) (p : Polygon) : Polygon :=
  {| datum := datum p; fill := fill_of pg (datum p); selected := selected p |}.

Definition updateMapColors (pg : Page) : Page :=
  let pg := updateLegend (updateColorScale pg) in
  with_polygons (map (repaint pg) (polygons pg)) pg.

(** The [change] listener of [#metric-select], which [attachControls]
    installs; [value] is [event.target.value]. *)
Definition on_metric_change (value : string) (pg : Page) : Page :=
  let pg :=
    {| stateSummary := stateSummary pg;
       selectedState := selectedState pg;
       currentMetric := value;
       legendRange := legendRange pg;
       colorScale := colorScale pg;
       metric_description := metric_description pg;
       legend := legend pg;
       polygons := polygons pg |} in
  updateMapColors (updateMetricDescription (currentMetric pg) pg).

Definition classed_selected (b : bool) (p : Polygon) : Polygon :=
  {| datum := datum p; fill := fill p; selected := b |}.

(** [d3.select(this).classed("selected", true)] for the element at index [i]. *)
Fixpoint select_at (i : nat) (ps : list Polygon) : list Polygon :=
  match ps, i with
  | [], _ => []
  | p :: r, O => classed_selected true p :: r
  | p :: r, S j => p :: select_at j r
  end.

(** One polygon per feature, then the default selection is highlighted. *)
Definition initMap (features : list (Feature num)) (pg : Page) : Page :=
  let pg := updateLegend (updateColorScale pg) in
  let drawn :=
    map (fun d => {| datum := d; fill := fill_of pg d; selected := false |})
        features in
  let highlighted :=
    map (fun p =>
           if String.eqb (extractStateCode (datum p)) (selectedState pg)
           then classed_selected true p else p) drawn in
  with_polygons highlighted pg.

(** The [click] listener of the polygon at index [i] of the map. *)
Definition on_click (i : nat) (pg : Page) : Page :=
  match nth_error (polygons pg) i with
  | None => pg
  | Some p =>
      let code := extractStateCode (datum p) in
      if is_empty code then pg
      else
        {| stateSummary := stateSummary pg;
           selectedState := code;
           currentMetric := currentMetric pg;
           legendRange := legendRange pg;
           colorScale := colorScale pg;
           metric_description := metric_description pg;
           legend := legend pg;
           polygons :=
             select_at i (map (classed_selected false) (polygons pg)) |}
  end.

(** The default selection: the current one when the summary has it, else the
    first key of the summary, else ["CA"]. *)
Definition default_selection (summary : JsMap.t (StateSummary num))
    (current : string) : string :=
  if JsMap.has summary current then current
  else
    match JsMap.keys summary with
    | firstKey :: _ => if is_empty firstKey then "CA" else firstKey
    | [] => "CA"
    end.

(** The handler that runs once both files are loaded. *)
Definition on_load (stateMonth : list (AccidentRecord num))
    (features : list (Feature num)) (pg : Page) : Page :=
  let summary := buildStateSummary stateMonth in
  let pg :=
    {| stateSummary := summary;
       selectedState := default_selection summary (selectedState pg);
       currentMetric := currentMetric pg;
       legendRange := legendRange pg;
       colorScale := colorScale pg;
       metric_description := metric_description pg;
       legend := legend pg;
       polygons := polygons pg |} in
  initMap features (updateMetricDescription (currentMetric pg) pg).

(** The polygons that carry the class [selected]. *)
Definition selected_count (pg : Page) : nat :=
  List.length (filter selected (polygons pg)).

End Page.

Arguments Paint : clear implicits.
Arguments Polygon : clear implicits.
Arguments Page : clear implicits.

End Ui.

(** ** Vocabulary of the statements *)

Section Vocabulary.

Context {num : Type} `{JsNumber num}.

(** The key under which a record is aggregated. *)
Definition code_of (d : AccidentRecord num) : string :=
  toUpperCase (or_empty (state d)).

(** The records of one state, in the order of the input. *)
Definition records_of (code : string) (data : list (AccidentRecord num))
  : list (AccidentRecord num) :=
  filter (fun d => String.eqb (code_of d) code) data.

(** The sum of [count_accidents], added up from 0 in the order of the input. *)
Definition sum_counts (rs : list (AccidentRecord num)) : num :=
  fold_left (fun a d => (a + count_accidents d)%js) rs num_zero.

(** The sum of [avg_severity * count_accidents], added up the same way. *)
Definition sum_weighted (rs : list (AccidentRecord num)) : num :=
  fold_left (fun a d => (a + avg_severity d * count_accidents d)%js) rs num_zero.

(** The count-weighted mean of the severities, 0 unless the total is positive. *)
Definition weighted_mean (rs : list (AccidentRecord num)) : num :=
  if (num_zero <? sum_counts rs)%js
  then (sum_weighted rs / sum_counts rs)%js
  else num_zero.

Definition is_minimum (lo : num) (values : list num) : Prop :=
  In lo values /\ forall v, In v values -> (lo <=? v)%js = true.

Definition is_maximum (hi : num) (values : list num) : Prop :=
  In hi values /\ forall v, In v values -> (v <=? hi)%js = true.

(** What one record adds to the entry of its state. *)
Definition add_record (e : Entry num) (d : AccidentRecord num) : Entry num :=
  {| entry_totalCount := (entry_totalCount e + count_accidents d)%js;
     weightedSeverity :=
       (weightedSeverity e + avg_severity d * count_accidents d)%js |}.

(** [summary.get(code) || { totalCount: 0, weightedSeverity: 0 }] *)
Definition entry_or_new (e : option (Entry num)) : Entry num :=
  match e with Some x => x | None => new_entry end.

(** A state code as the summary keeps it: not empty and in upper case. *)
Definition is_state_key (k : string) : Prop :=
  is_empty k = false /\ toUpperCase k = k.

(** The least and the greatest of some values, up to [===]. *)
Definition is_least (lo : num) (values : list num) : Prop :=
  (exists v, In v values /\ (lo =? v)%js = true) /\
  forall v, In v values -> (lo <=? v)%js = true.

Definition is_greatest (hi : num) (values : list num) : Prop :=
  (exists v, In v values /\ (hi =? v)%js = true) /\
  forall v, In v values -> (v <=? hi)%js = true.

End Vocabulary.

(** An integer as an exact number. *)
Definition exact_of_Z (z : Z) : exact := Exact (Q2Qc (inject_Z z)).

(** A record as the data model describes it, in exact arithmetic: the count
    is an integer that is not negative, the severity lies in [1, 4]. *)
Definition well_formed_exact (d : AccidentRecord exact) : Prop :=
  (exists n : Z, (0 <= n)%Z /\ count_accidents d = exact_of_Z n) /\
  (exists q : Qc, avg_severity d = Exact q /\ (Q2Qc 1 <= q)%Qc /\ (q <= Q2Qc 4)%Qc).

(** ** The severity formatter of the legend *)

Section Format.

Local Open Scope string_scope.
Local Open Scope Z_scope.

(** The decimal digits of a natural number. *)
Definition decimal (n : Z) : string :=
  DecimalString.NilZero.string_of_uint (N.to_uint (Z.to_N n)).

Definition two_digits (n : Z) : string :=
  decimal (n / 10) ++ decimal (n mod 10).

(** The integer nearest to [100 * m * 2^e], the larger one on a tie. *)
Definition hundredths (m : positive) (e : Z) : Z :=
  if 0 <=? e then 100 * Z.pos m * 2 ^ e
  else (200 * Z.pos m + 2 ^ (- e)) / 2 ^ (- e + 1).

(** [m * 2^e < 10^21], the range in which [toFixed] prints digits. *)
Definition below_1e21 (m : positive) (e : Z) : bool :=
  if 0 <=? e then Z.pos m * 2 ^ e <? 10 ^ 21
  else Z.pos m <? 10 ^ 21 * 2 ^ (- e).

(** The minus sign of d3's default locale, U+2212 in UTF-8. *)
Definition minus_sign : string :=
  String (ascii_of_nat 226) (String (ascii_of_nat 136)
    (String (ascii_of_nat 146) EmptyString)).

(** [d3.format(".2f")] on a binary64 value: [toFixed(2)] of the absolute
    value, with the locale's minus sign unless the digits are all zero.  d3
    is not part of the script; this follows d3-format and ECMAScript's
    [Number.prototype.toFixed].  Beyond 10^21 [toFixed] switches to the
    exponent notation, which is not rendered here ([None]). *)
Definition d3_format_2f (x : float) : option string :=
  match Prim2SF x with
  | S754_nan => Some "NaN"
  | S754_zero _ => Some "0.00"
  | S754_infinity s => Some ((if s then minus_sign else "") ++ "Infinity")
  | S754_finite s m e =>
      if below_1e21 m e then
        let n := hundredths m e in
        Some ((if s && negb (n =? 0) then minus_sign else "")
              ++ decimal (n / 100) ++ "." ++ two_digits (n mod 100))
      else None
  end.

End Format.

(** The legend's severity text, with d3's formatter. *)
Definition formatSeverity_d3 (x : float) : string :=
  match d3_format_2f x with Some s => s | None => "" end.

(** ** Keys for the comparison of binary64 values *)

(** The values that are at least 0 (the zeros of both signs included). *)
Definition SFnonneg (x : spec_float) : bool :=
  match x with
  | S754_zero _ => true
  | S754_infinity s => negb s
  | S754_nan => false
  | S754_finite s _ _ => negb s
  end.

(** A key for every value that is not NaN: the comparison of two floats is
    the lexicographic comparison of their keys. *)
Definition float_key (x : spec_float) : option (Z * Z * Z) :=
  match x with
  | S754_nan => None
  | S754_zero _ => Some (0, 0, 0)%Z
  | S754_infinity s => Some (if s then (-2) else 2, 0, 0)%Z
  | S754_finite s m e =>
      Some (if s then (-1, - e, Z.neg m)%Z else (1, e, Z.pos m)%Z)
  end.

Definition lex3 (a b : Z * Z * Z) : comparison :=
  let '(a1, a2, a3) := a in
  let '(b1, b2, b3) := b in
  match (a1 ?= b1)%Z with
  | Eq => match (a2 ?= b2)%Z with Eq => (a3 ?= b3)%Z | c => c end
  | c => c
  end.

Definition lex_lt (a b : Z * Z * Z) : Prop :=
  let '(a1, a2, a3) := a in
  let '(b1, b2, b3) := b in
  (a1 < b1 \/ (a1 = b1 /\ (a2 < b2 \/ (a2 = b2 /\ a3 < b3))))%Z.

(** ** Doubles as whole numbers of units

    A double that is at least 0 is a whole number of units, where one unit is
    the least positive double, 2^-1074; [Infinity] counts as 2^1024.  These
    definitions state what [SFadd], [SFmul] and [SFdiv] of the kernel's
    specification compute on such doubles. *)

Section Units.

Local Open Scope Z_scope.










End Units.


(** ** Inputs of the examples *)

Section Inputs.

Local Open Scope string_scope.

(** Two records of Texas; the month and the year play no role. *)
Definition tx_records {num} `{JsNumber num} (c1 s1 c2 s2 : num)
    (ym1 ym2 : option string) (y1 y2 : num) : list (AccidentRecord num) :=
  [ {| state := Some "TX"; year_month := ym1; year := y1;
       count_accidents := c1; avg_severity := s1 |};
    {| state := Some "TX"; year_month := ym2; year := y2;
       count_accidents := c2; avg_severity := s2 |} ].

Definition tx_binary64 : list (AccidentRecord float) :=
  tx_records 100%float 2%float 50%float 4%float
    (Some "2016-02") (Some "2016-03") 2016%float 2016%float.

(** Records spelled ["ca"] and ["CA"], and two without a state code. *)
Definition ca_records : list (AccidentRecord float) :=
  [ {| state := Some "ca"; year_month := Some "2016-02"; year := 2016%float;
       count_accidents := 7%float; avg_severity := 2%float |};
    {| state := None; year_month := Some "2016-02"; year := 2016%float;
       count_accidents := 1000%float; avg_severity := 4%float |};
    {| state := Some "CA"; year_month := Some "2016-03"; year := 2016%float;
       count_accidents := 5%float; avg_severity := 3%float |};
    {| state := Some ""; year_month := Some "2016-03"; year := 2016%float;
       count_accidents := 1000%float; avg_severity := 4%float |} ].

Definition one_state (code : string) (total avg : float)
  : JsMap.t (StateSummary float) :=
  [ (code, {| totalCount := total; avgSeverity := avg |}) ].

(** Three states with different totals and averages. *)
Definition three_states : JsMap.t (StateSummary float) :=
  [ ("CA", {| totalCount := 1200%float; avgSeverity := 2.25%float |});
    ("TX", {| totalCount := 150%float; avgSeverity := 2.6666666666666665%float |});
    ("NY", {| totalCount := 480%float; avgSeverity := 2.5%float |}) ].

(** A page whose summary has the single average 2.5 and whose metric is
    "severity". *)
Definition page_2_5 : Ui.Page float :=
  {| Ui.stateSummary := one_state "TX" 100%float 2.5%float;
     Ui.selectedState := "TX";
     Ui.currentMetric := "severity";
     Ui.legendRange := {| min := 0%float; max := 1%float |};
     Ui.colorScale := None;
     Ui.metric_description := "";
     Ui.legend := Ui.legend (Ui.initial (num := float));
     Ui.polygons := [] |}.

Definition feature_of (key code : string) : Feature float :=
  {| properties := Some [ ("NAME10", JsString "a state"); (key, JsString code) ] |}.

(** Three polygons: Texas (selected), a feature without a usable code, and
    California with a padded code. *)
Definition three_polygons : list (Ui.Polygon float) :=
  [ {| Ui.datum := feature_of "STUSPS10" "TX"; Ui.fill := None;
       Ui.selected := true |};
    {| Ui.datum := feature_of "postal" "  "; Ui.fill := None;
       Ui.selected := false |};
    {| Ui.datum := feature_of "STATE" " CA "; Ui.fill := None;
       Ui.selected := false |} ].

Definition clickable_page : Ui.Page float :=
  Ui.with_polygons three_polygons page_2_5.

Definition exact_record (code : string) (count : Z) (severity : Q)
  : AccidentRecord exact :=
  {| state := Some code; year_month := None; year := exact_of_Z 2016;
     count_accidents := exact_of_Z count;
     avg_severity := Exact (Q2Qc severity) |}.

Definition exact_data : list (AccidentRecord exact) :=
  [ exact_record "TX" 100 2; exact_record "ca" 0 (5 # 2);
    exact_record "tx" 50 4; exact_record "CA" 0 1 ].

(** One Texas record with 2^1023 accidents of severity 4. *)
Definition huge_record : AccidentRecord float :=
  {| state := Some "TX"; year_month := Some "2016-02"; year := 2016%float;
     count_accidents := 0x1p+1023%float; avg_severity := 4%float |}.

(** Two Texas records of 2^1023 accidents each. *)
Definition two_huge_records : list (AccidentRecord float) :=
  [ huge_record; huge_record ].

(** A summary in which one total is infinite. *)
Definition infinite_total : JsMap.t (StateSummary float) :=
  [ ("CA", {| totalCount := 5%float; avgSeverity := 2%float |});
    ("TX", {| totalCount := infinity; avgSeverity := 2%float |}) ].

End Inputs.

(** ** State name and tooltip text *)

Section Names.

Context {num : Type} `{JsNumber num}.

Local Open Scope string_scope.

(** [Number.prototype.toString], and the two d3 formatters of the tooltip. *)
Variable numberToString : num -> string.
Variable formatNumber : num -> string.
Variable formatSeverity : num -> string.

(** Truthiness of a value: every array and every object is truthy. *)
Definition js_truthy (v : JsValue num) : bool :=
  match v with
  | JsUndefined | JsNull => false
  | JsBoolean b => b
  | JsNumberValue n => truthy n
  | JsString s => negb (is_empty s)
  | JsArray _ | JsObject _ => true
  end.

(** Whether an object has an own property of that name. *)
Definition has_own (fields : list (string * JsValue num)) (k : string)
  : bool :=
  existsb (fun kv => String.eqb (fst kv) k) fields.

(** The values that are neither arrays nor objects. *)
Definition is_primitive (v : JsValue num) : bool :=
  match v with
  | JsArray _ | JsObject _ => false
  | _ => true
  end.

(** [a || b] *)
Definition js_or (a b : JsValue num) : JsValue num :=
  if js_truthy a then a else b.

(** [v.toString()] for a value that came out of [JSON.parse]; [None] when
    the call throws.  It throws on undefined and null.  An object with an own
    property [toString] throws, because no JSON value is a function; any
    other object gives "[object Object]".  An array joins the strings of its
    elements with commas, where undefined and null elements give the empty
    string, and it throws when an element does. *)
Fixpoint js_toString (v : JsValue num) : option string :=
  match v with
  | JsUndefined | JsNull => None
  | JsBoolean b => Some (if b then "true" else "false")
  | JsNumberValue n => Some (numberToString n)
  | JsString s => Some s
  | JsArray items =>
      (fix join (l : list (JsValue num)) : option string :=
         match l with
         | [] => Some ""
         | x :: r =>
             match
               match x with
               | JsUndefined | JsNull => Some ""
               | _ => js_toString x
               end, join r
             with
             | Some a, Some b =>
                 Some match r with [] => a | _ :: _ => a ++ "," ++ b end
             | _, _ => None
             end
         end) items
  | JsObject fields =>
      if has_own fields "toString" then None else Some "[object Object]"
  end.

Definition extractStateName (feature : Feature num) : option string :=
  let props := match properties feature with Some p => p | None => [] end in
  js_toString
    (js_or
       (js_or
          (js_or
             (js_or
                (js_or (property props "NAME") (property props "NAME10"))
                (property props "name"))
             (property props "state_name"))
          (JsString (extractStateCode feature)))
       (JsString "State")).

(** The two texts of the tooltip. *)
Definition tooltip_with_data (name code : string) (stats : StateSummary num)
  : string :=
  "<strong>" ++ name ++ " (" ++ code ++ ")</strong><br/>Accidents: "
  ++ formatNumber (totalCount stats) ++ "<br/>Avg severity: "
  ++ formatSeverity (avgSeverity stats).

Definition tooltip_no_data (name : string) : string :=
  "<strong>" ++ name ++ "</strong><br/>No data".

(** The text that the [mouseover] listener builds for a feature; [None] when
    [extractStateName] throws. *)
Definition tooltip_html (stateSummary : JsMap.t (StateSummary num))
    (d : Feature num) : option string :=
  let code := extractStateCode d in
  match extractStateName d with
  | None => None
  | Some name =>
      Some match JsMap.get stateSummary code with
           | Some stats => tooltip_with_data name code stats
           | None => tooltip_no_data name
           end
  end.

End Names.

(** ** The session: the page, the tooltip, the borders and the events *)

Module Session.

Section Events.

Local Open Scope string_scope.

Variable numberToString : float -> string.
Variable formatCount : float -> string.
Variable formatSeverity : float -> string.

(** The tooltip element: its content and the inline styles the script sets. *)
Record Tooltip : Type := {
  html : string;
  left : string;
  top : string;
  opacity : string
}.

(** [createTooltip]: a fresh element, nothing set. *)
Definition createTooltip : Tooltip :=
  {| html := ""; left := ""; top := ""; opacity := "" |}.

Definition showTooltip (content : string) (pageX pageY : float) (t : Tooltip)
  : Tooltip :=
  {| html := content;
     left := numberToString (pageX + 12)%float ++ "px";
     top := numberToString (pageY + 12)%float ++ "px";
     opacity := "1" |}.

Definition hideTooltip (t : Tooltip) : Tooltip :=
  {| html := html t; left := left t; top := top t; opacity := "0" |}.

(** The page, the tooltip and the [stroke-width] attribute of every polygon. *)
Record View : Type := {
  page : Ui.Page float;
  tooltip : Tooltip;
  stroke_width : list string
}.

(** [attr("stroke-width", w)] on the polygon at index [i]. *)
Fixpoint set_stroke (i : nat) (w : string) (widths : list string)
  : list string :=
  match widths, i with
  | [], _ => []
  | _ :: r, O => w :: r
  | x :: r, S j => x :: set_stroke j w r
  end.

Inductive Event : Type :=
| Change (value : string)
| Click (i : nat)
| MouseOver (i : nat) (pageX pageY : float)
| MouseMove (pageX pageY : float)
| MouseOut (i : nat).

(** The state once both files are loaded and the map is drawn. *)
Definition start (stateMonth : list (AccidentRecord float))
    (features : list (Feature float)) : View :=
  {| page :=
       Ui.on_load formatCount formatSeverity stateMonth features Ui.initial;
     tooltip := createTooltip;
     stroke_width := map (fun _ => "0.7") features |}.

Definition mouseover (i : nat) (pageX pageY : float) (v : View) : View :=
  match nth_error (Ui.polygons (page v)) i with
  | None => v
  | Some p =>
      match tooltip_html numberToString formatCount formatSeverity
              (Ui.stateSummary (page v)) (Ui.datum p) with
      | None => v
      | Some content =>
          {| page := page v;
             tooltip := showTooltip content pageX pageY (tooltip v);
             stroke_width := set_stroke i "1.5" (stroke_width v) |}
      end
  end.

Definition mousemove (pageX pageY : float) (v : View) : View :=
  {| page := page v;
     tooltip :=
       {| html := html (tooltip v);
          left := numberToString (pageX + 12)%float ++ "px";
          top := numberToString (pageY + 12)%float ++ "px";
          opacity := opacity (tooltip v) |};
     stroke_width := stroke_width v |}.

Definition mouseout (i : nat) (v : View) : View :=
  match nth_error (Ui.polygons (page v)) i with
  | None => v
  | Some _ =>
      {| page := page v;
         tooltip := hideTooltip (tooltip v);
         stroke_width := set_stroke i "0.7" (stroke_width v) |}
  end.

Definition with_page (pg : Ui.Page float) (v : View) : View :=
  {| page := pg; tooltip := tooltip v; stroke_width := stroke_width v |}.

Definition step (v : View) (e : Event) : View :=
  match e with
  | Change value =>
      with_page
        (Ui.on_metric_change formatCount formatSeverity value (page v)) v
  | Click i => with_page (Ui.on_click i (page v)) v
  | MouseOver i pageX pageY => mouseover i pageX pageY v
  | MouseMove pageX pageY => mousemove pageX pageY v
  | MouseOut i => mouseout i v
  end.

Definition run (events : list Event) (v : View) : View :=
  fold_left step events v.

End Events.

End Session.

(** ** Vocabulary of the further statements *)

Section MoreVocabulary.

Context {num : Type} `{JsNumber num}.

(** The first occurrences of the strings of a list, in order; [seen] are the
    strings met before. *)
Fixpoint distinct (seen : list string) (l : list string) : list string :=
  match l with
  | [] => []
  | k :: r =>
      if existsb (String.eqb k) seen then distinct seen r
      else k :: distinct (k :: seen) r
  end.

(** The codes of the records that have one, in the order of the input. *)
Definition codes_of (data : list (AccidentRecord num)) : list string :=
  filter (fun k => negb (is_empty k)) (map code_of data).

(** Two records that the aggregation cannot tell apart. *)
Definition same_figures (d d' : AccidentRecord num) : Prop :=
  state d = state d' /\ count_accidents d = count_accidents d' /\
  avg_severity d = avg_severity d'.

(** A string without white space at either end. *)
Definition head_is_space (s : string) : bool :=
  match s with EmptyString => false | String c _ => is_space c end.

Fixpoint last_is_space (s : string) : bool :=
  match s with
  | EmptyString => false
  | String c EmptyString => is_space c
  | String _ r => last_is_space r
  end.

(** The value of a state under a metric. *)
Definition metric_of (currentMetric : string) (s : StateSummary num) : num :=
  if String.eqb currentMetric "count" then totalCount s else avgSeverity s.

(** A polygon with the fill that a summary, a metric and a scale give it. *)
Definition paint (stateSummary : JsMap.t (StateSummary num))
    (currentMetric : string) (scale : ColorScale num) (p : Ui.Polygon num)
  : Ui.Polygon num :=
  {| Ui.datum := Ui.datum p;
     Ui.fill :=
       Some {| Ui.paint_scale := scale;
               Ui.paint_value :=
                 getMetricValue stateSummary currentMetric
                   (extractStateCode (Ui.datum p)) |};
     Ui.selected := Ui.selected p |}.

(** The description and the legend that the script writes for a metric and a
    legend range. *)
Definition description_for (currentMetric : string) : string :=
  Ui.metric_description (Ui.updateMetricDescription currentMetric Ui.initial).

Definition legend_for (formatCount formatSeverity : num -> string)
    (currentMetric : string) (range : LegendRange num) : Ui.Legend :=
  Ui.legend
    (Ui.updateLegend formatCount formatSeverity
       {| Ui.stateSummary := JsMap.empty;
          Ui.selectedState := EmptyString;
          Ui.currentMetric := currentMetric;
          Ui.legendRange := range;
          Ui.colorScale := None;
          Ui.metric_description := EmptyString;
          Ui.legend := Ui.legend Ui.initial;
          Ui.polygons := [] |}).

(** The page that shows a summary under a metric, with a given selection. *)
Definition render (formatCount formatSeverity : num -> string)
    (stateSummary : JsMap.t (StateSummary num))
    (selectedState currentMetric : string) (polygons : list (Ui.Polygon num))
  : Ui.Page num :=
  {| Ui.stateSummary := stateSummary;
     Ui.selectedState := selectedState;
     Ui.currentMetric := currentMetric;
     Ui.legendRange := snd (scale_for stateSummary currentMetric);
     Ui.colorScale := Some (fst (scale_for stateSummary currentMetric));
     Ui.metric_description := description_for currentMetric;
     Ui.legend :=
       legend_for formatCount formatSeverity currentMetric
         (snd (scale_for stateSummary currentMetric));
     Ui.polygons :=
       map (paint stateSummary currentMetric
              (fst (scale_for stateSummary currentMetric))) polygons |}.

(** What the page shows is what the current metric and the summary give: the
    scale, the legend range, the description, the legend and every fill. *)
Definition shows_metric (formatCount formatSeverity : num -> string)
    (pg : Ui.Page num) : Prop :=
  Ui.colorScale pg =
    Some (fst (scale_for (Ui.stateSummary pg) (Ui.currentMetric pg))) /\
  Ui.legendRange pg =
    snd (scale_for (Ui.stateSummary pg) (Ui.currentMetric pg)) /\
  Ui.metric_description pg =
    Ui.metric_description
      (Ui.updateMetricDescription (Ui.currentMetric pg) pg) /\
  Ui.legend pg = Ui.legend (Ui.updateLegend formatCount formatSeverity pg) /\
  Forall
    (fun p =>
       Ui.fill p =
       Some {| Ui.paint_scale :=
                 fst (scale_for (Ui.stateSummary pg) (Ui.currentMetric pg));
               Ui.paint_value :=
                 getMetricValue (Ui.stateSummary pg) (Ui.currentMetric pg)
                   (extractStateCode (Ui.datum p)) |})
    (Ui.polygons pg).

(** Every selected polygon is one of the selected state. *)
Definition selection_matches (pg : Ui.Page num) : Prop :=
  Forall
    (fun p =>
       Ui.selected p = true ->
       extractStateCode (Ui.datum p) = Ui.selectedState pg)
    (Ui.polygons pg).

End MoreVocabulary.

(** ** Inputs of the further examples *)

Section MoreInputs.

Local Open Scope string_scope.

Definition tx_count (count : float) : AccidentRecord float :=
  {| state := Some "TX"; year_month := Some "2016-02"; year := 2016%float;
     count_accidents := count; avg_severity := 2%float |}.

(** The same three Texas records in two orders. *)
Definition large_first : list (AccidentRecord float) :=
  [ tx_count 9007199254740992%float; tx_count 1%float; tx_count 1%float ].

Definition large_last : list (AccidentRecord float) :=
  [ tx_count 1%float; tx_count 1%float; tx_count 9007199254740992%float ].

(** Features whose codes are spelled in upper case, in lower case, and a
    feature without properties. *)
Definition named_feature (name code : string) : Feature float :=
  {| properties :=
       Some [ ("NAME10", JsString name); ("STUSPS10", JsString code) ] |}.

Definition some_features : list (Feature float) :=
  [ named_feature "Texas" "TX"; named_feature "California" "ca";
    {| properties := None |}; named_feature "Texas again" "TX" ].

(** A feature whose name is an object with an own property [toString], and
    one whose name is an array. *)
Definition object_named_feature : Feature float :=
  {| properties :=
       Some [ ("NAME", JsObject [ ("toString", JsNumberValue 1%float) ]);
              ("STUSPS", JsString "TX") ] |}.

Definition array_named_feature : Feature float :=
  {| properties :=
       Some [ ("NAME", JsArray [ JsString "New"; JsNull; JsString "York" ]);
              ("STUSPS", JsString "NY") ] |}.

End MoreInputs.

(** ** What a session keeps *)

(** The state of a session that started from [data] and [features]: the
    summary and the features are those of the start, the page shows the
    current metric, the selected polygons are of the selected state, and
    every polygon has a border of one of the two widths. *)
Definition session_ok (formatCount formatSeverity : float -> string)
    (data : list (AccidentRecord float)) (features : list (Feature float))
    (v : Session.View) : Prop :=
  Ui.stateSummary (Session.page v) = buildStateSummary data /\
  map Ui.datum (Ui.polygons (Session.page v)) = features /\
  shows_metric formatCount formatSeverity (Session.page v) /\
  selection_matches (Session.page v) /\
  List.length (Session.stroke_width v) = List.length features /\
  Forall (fun w => w = "0.7"%string \/ w = "1.5"%string)
    (Session.stroke_width v).

(** * Facts *)

(** ** String facts *)

Lemma upper_ascii_idempotent (c : ascii) :
  upper_ascii (upper_ascii c) = upper_ascii c.
Proof.
  destruct c as [[] [] [] [] [] [] [] []]; reflexivity.
Qed.

Lemma toUpperCase_idempotent (s : string) :
  toUpperCase (toUpperCase s) = toUpperCase s.
Proof.
  induction s as [|c r IH]; simpl.
  - reflexivity.
  - now rewrite upper_ascii_idempotent, IH.
Qed.

Lemma is_empty_toUpperCase (s : string) :
  is_empty (toUpperCase s) = is_empty s.
Proof. destruct s; reflexivity. Qed.

(** ** Facts about [JsMap] *)

Module JsMapFacts.

Import JsMap.

Section Facts.

Context {V W : Type}.

Lemma get_set_same (m : t V) k v : get (set m k v) k = Some v.
Proof.
  induction m as [|[k' v'] r IH]; simpl.
  - now rewrite String.eqb_refl.
  - destruct (String.eqb k' k) eqn:E; simpl; rewrite E; auto.
Qed.

Lemma get_set_other (m : t V) k k' v :
  k <> k' -> get (set m k v) k' = get m k'.
Proof.
  intros Hne.
  induction m as [|[k0 v0] r IH]; simpl.
  - destruct (String.eqb_spec k k'); congruence.
  - destruct (String.eqb_spec k0 k) as [->|Hk]; simpl.
    + destruct (String.eqb_spec k k'); congruence.
    + now rewrite IH.
Qed.

Lemma get_map_values (f : V -> W) (m : t V) k :
  get (map_values f m) k = option_map f (get m k).
Proof.
  induction m as [|[k' v'] r IH]; simpl; auto.
  destruct (String.eqb k' k); auto.
Qed.

Lemma keys_map_values (f : V -> W) (m : t V) :
  keys (map_values f m) = keys m.
Proof.
  unfold keys, map_values. rewrite map_map. reflexivity.
Qed.

Lemma get_in_keys (m : t V) k : get m k <> None <-> In k (keys m).
Proof.
  induction m as [|[k' v'] r IH]; simpl.
  - tauto.
  - destruct (String.eqb_spec k' k) as [->|Hk].
    + split; [auto | congruence].
    + rewrite IH. split; [auto | intros [?|?]; congruence].
Qed.

Lemma keys_set (m : t V) k v :
  keys (set m k v) = if has m k then keys m else keys m ++ [k].
Proof.
  unfold has.
  induction m as [|[k' v'] r IH]; simpl; auto.
  destruct (String.eqb_spec k' k) as [->|Hk]; simpl; auto.
  rewrite IH. destruct (get r k); reflexivity.
Qed.

Lemma has_false_not_in (m : t V) k : has m k = false <-> ~ In k (keys m).
Proof.
  rewrite <- get_in_keys. unfold has.
  destruct (get m k); split; intros E; try congruence.
  exfalso. apply E. congruence.
Qed.

Lemma NoDup_keys_set (m : t V) k v :
  NoDup (keys m) -> NoDup (keys (set m k v)).
Proof.
  intros Hnd. rewrite keys_set.
  destruct (has m k) eqn:E; auto.
  apply has_false_not_in in E.
  apply NoDup_app; auto.
  - constructor; [tauto | constructor].
  - intros x Hx [<-|[]]. tauto.
Qed.

End Facts.

End JsMapFacts.

(** ** The aggregation pass *)

Section Aggregation.

Context {num : Type} `{JsNumber num}.

Import JsMap JsMapFacts.

Lemma accumulate_unfold (m : JsMap.t (Entry num)) d :
  accumulate m d =
  if is_empty (code_of d) then m
  else set m (code_of d) (add_record (entry_or_new (get m (code_of d))) d).
Proof.
  unfold accumulate, code_of, add_record, entry_or_new.
  destruct (is_empty _); [reflexivity|].
  destruct (get m _); reflexivity.
Qed.

Lemma get_accumulate (m : JsMap.t (Entry num)) d k :
  is_empty k = false ->
  get (accumulate m d) k =
  if String.eqb (code_of d) k
  then Some (add_record (entry_or_new (get m k)) d)
  else get m k.
Proof.
  intros Hk. rewrite accumulate_unfold.
  destruct (String.eqb_spec (code_of d) k) as [->|Hne].
  - rewrite Hk. apply get_set_same.
  - destruct (is_empty (code_of d)); [reflexivity|].
    now apply get_set_other.
Qed.

Lemma get_accumulate_empty_key (m : JsMap.t (Entry num)) d k :
  is_empty k = true -> get (accumulate m d) k = get m k.
Proof.
  intros Hk. rewrite accumulate_unfold.
  destruct (is_empty (code_of d)) eqn:E; [reflexivity|].
  apply get_set_other. intros Heq. rewrite Heq in E. congruence.
Qed.

Lemma get_fold_accumulate (data : list (AccidentRecord num)) :
  forall (m : JsMap.t (Entry num)) k,
    get (fold_left accumulate data m) k =
    if is_empty k then get m k
    else match records_of k data with
         | [] => get m k
         | rs => Some (fold_left add_record rs (entry_or_new (get m k)))
         end.
Proof.
  induction data as [|d data IH]; intros m k; simpl.
  - destruct (is_empty k); reflexivity.
  - rewrite IH. destruct (is_empty k) eqn:Hk.
    + now apply get_accumulate_empty_key.
    + rewrite get_accumulate by assumption.
      destruct (String.eqb (code_of d) k); [|reflexivity].
      destruct (records_of k data); reflexivity.
Qed.

Lemma fold_add_record_totalCount (rs : list (AccidentRecord num)) :
  forall e,
    entry_totalCount (fold_left add_record rs e) =
    fold_left (fun a d => (a + count_accidents d)%js) rs (entry_totalCount e).
Proof.
  induction rs as [|d rs IH]; intros e; simpl; [reflexivity|].
  now rewrite IH.
Qed.

Lemma fold_add_record_weighted (rs : list (AccidentRecord num)) :
  forall e,
    weightedSeverity (fold_left add_record rs e) =
    fold_left (fun a d => (a + avg_severity d * count_accidents d)%js) rs
      (weightedSeverity e).
Proof.
  induction rs as [|d rs IH]; intros e; simpl; [reflexivity|].
  now rewrite IH.
Qed.

Lemma finish_fold (rs : list (AccidentRecord num)) :
  finish (fold_left add_record rs new_entry) =
  {| totalCount := sum_counts rs; avgSeverity := weighted_mean rs |}.
Proof.
  unfold finish, weighted_mean, sum_counts, sum_weighted.
  now rewrite fold_add_record_totalCount, fold_add_record_weighted.
Qed.

(** The entry of every key, in closed form. *)
Lemma get_buildStateSummary (data : list (AccidentRecord num)) k :
  get (buildStateSummary data) k =
  if is_empty k then None
  else match records_of k data with
       | [] => None
       | rs => Some {| totalCount := sum_counts rs;
                       avgSeverity := weighted_mean rs |}
       end.
Proof.
  unfold buildStateSummary.
  rewrite get_map_values, get_fold_accumulate.
  destruct (is_empty k); [reflexivity|].
  destruct (records_of k data) as [|r rs]; [reflexivity|].
  change (get empty k) with (@None (Entry num)).
  cbn [option_map entry_or_new]. now rewrite finish_fold.
Qed.

(** The keys that the pass creates are upper-case, non-empty and distinct. *)
Lemma keys_accumulate (m : JsMap.t (Entry num)) d :
  Forall is_state_key (keys m) -> Forall is_state_key (keys (accumulate m d)).
Proof.
  intros Hm. rewrite accumulate_unfold.
  destruct (is_empty (code_of d)) eqn:E; [assumption|].
  rewrite keys_set. destruct (has m (code_of d)); [assumption|].
  apply Forall_app. split; [assumption|].
  constructor; [|constructor].
  split; [assumption|]. apply toUpperCase_idempotent.
Qed.

Lemma NoDup_keys_accumulate (m : JsMap.t (Entry num)) d :
  NoDup (keys m) -> NoDup (keys (accumulate m d)).
Proof.
  intros Hm. rewrite accumulate_unfold.
  destruct (is_empty (code_of d)); [assumption|].
  now apply NoDup_keys_set.
Qed.

Lemma keys_fold_accumulate (data : list (AccidentRecord num)) :
  forall m : JsMap.t (Entry num),
    Forall is_state_key (keys m) /\ NoDup (keys m) ->
    Forall is_state_key (keys (fold_left accumulate data m)) /\
    NoDup (keys (fold_left accumulate data m)).
Proof.
  induction data as [|d data IH]; intros m [Hk Hnd]; simpl.
  - now split.
  - apply IH. split.
    + now apply keys_accumulate.
    + now apply NoDup_keys_accumulate.
Qed.

Lemma keys_buildStateSummary (data : list (AccidentRecord num)) :
  Forall is_state_key (keys (buildStateSummary data)) /\
  NoDup (keys (buildStateSummary data)).
Proof.
  unfold buildStateSummary. rewrite keys_map_values.
  apply keys_fold_accumulate. split; constructor.
Qed.

End Aggregation.

(** ** The order of binary64 *)

Lemma lex3_spec (a b : Z * Z * Z) :
  CompareSpec (a = b) (lex_lt a b) (lex_lt b a) (lex3 a b).
Proof.
  destruct a as [[a1 a2] a3], b as [[b1 b2] b3]; unfold lex3, lex_lt.
  destruct (Z.compare_spec a1 b1); try (constructor; lia).
  destruct (Z.compare_spec a2 b2); try (constructor; lia).
  destruct (Z.compare_spec a3 b3); constructor; subst; auto; lia.
Qed.

Lemma lex_lt_irrefl (a : Z * Z * Z) : ~ lex_lt a a.
Proof. destruct a as [[a1 a2] a3]; unfold lex_lt; lia. Qed.

Lemma lex_lt_trans (a b c : Z * Z * Z) : lex_lt a b -> lex_lt b c -> lex_lt a c.
Proof.
  destruct a as [[a1 a2] a3], b as [[b1 b2] b3], c as [[c1 c2] c3].
  unfold lex_lt; lia.
Qed.

Lemma SFcompare_key (x y : spec_float) :
  SFcompare x y =
  match float_key x, float_key y with
  | Some a, Some b => Some (lex3 a b)
  | _, _ => None
  end.
Proof.
  destruct x as [sx|sx| |sx mx ex], y as [sy|sy| |sy my ey];
    try reflexivity;
    try (destruct sx; reflexivity);
    try (destruct sy; reflexivity);
    try (destruct sx, sy; reflexivity).
  destruct sx, sy; try reflexivity; cbn [SFcompare float_key lex3].
  rewrite Z.compare_opp, (Z.compare_antisym ey ex).
  destruct (ey ?= ex)%Z; reflexivity.
Qed.

(** The three comparisons of binary64 through the keys. *)
Lemma float_ltb_key (x y : float) :
  (x <? y)%float = true <->
  exists a b, float_key (Prim2SF x) = Some a /\ float_key (Prim2SF y) = Some b
              /\ lex_lt a b.
Proof.
  rewrite ltb_spec. unfold SFltb. rewrite SFcompare_key.
  destruct (float_key (Prim2SF x)) as [a|], (float_key (Prim2SF y)) as [b|];
    try (split; [discriminate | intros (? & ? & ? & ? & _); discriminate]).
  destruct (lex3_spec a b) as [E|L|G]; split; try discriminate; auto.
  - intros (a' & b' & Ha & Hb & Hlt).
    injection Ha as <-. injection Hb as <-. subst b.
    now apply lex_lt_irrefl in Hlt.
  - intros _. now exists a, b.
  - intros (a' & b' & Ha & Hb & Hlt).
    injection Ha as <-. injection Hb as <-.
    exfalso. apply (lex_lt_irrefl a). now apply lex_lt_trans with b.
Qed.

Lemma float_eqb_key (x y : float) :
  (x =? y)%float = true <->
  exists a, float_key (Prim2SF x) = Some a /\ float_key (Prim2SF y) = Some a.
Proof.
  rewrite eqb_spec. unfold SFeqb. rewrite SFcompare_key.
  destruct (float_key (Prim2SF x)) as [a|], (float_key (Prim2SF y)) as [b|];
    try (split; [discriminate | intros (? & ? & ?); discriminate]).
  destruct (lex3_spec a b) as [E|L|G]; split; try discriminate;
    try (intros; reflexivity).
  - intros _. subst. now exists b.
  - intros (c & Ha & Hb). injection Ha as <-. injection Hb as <-.
    now apply lex_lt_irrefl in L.
  - intros (c & Ha & Hb). injection Ha as <-. injection Hb as <-.
    now apply lex_lt_irrefl in G.
Qed.

Lemma float_leb_key (x y : float) :
  (x <=? y)%float = true <->
  exists a b, float_key (Prim2SF x) = Some a /\ float_key (Prim2SF y) = Some b
              /\ (lex_lt a b \/ a = b).
Proof.
  rewrite leb_spec. unfold SFleb. rewrite SFcompare_key.
  destruct (float_key (Prim2SF x)) as [a|], (float_key (Prim2SF y)) as [b|];
    try (split; [discriminate | intros (? & ? & ? & ? & _); discriminate]).
  destruct (lex3_spec a b) as [E|L|G]; split; try discriminate;
    try (intros; reflexivity).
  - intros _. exists a, b. auto.
  - intros _. exists a, b. auto.
  - intros (a' & b' & Ha & Hb & [Hlt|Heq]).
    + injection Ha as <-. injection Hb as <-.
      exfalso. apply (lex_lt_irrefl a). now apply lex_lt_trans with b.
    + injection Ha as <-. injection Hb as <-. subst b.
      now apply lex_lt_irrefl in G.
Qed.

Lemma lex_trichotomy (a b : Z * Z * Z) : lex_lt a b \/ a = b \/ lex_lt b a.
Proof. destruct (lex3_spec a b); auto. Qed.

Lemma bool_true_iff_eq (b c : bool) : (b = true <-> c = true) -> b = c.
Proof. destruct b, c; intros [H1 H2]; auto; (now rewrite H1) || (now rewrite H2). Qed.

(** The sum of two binary64 values that are at least 0 is at least 0:
    rounding keeps the sign, and an overflow gives +Infinity. *)
Lemma SFleb_zero (x : spec_float) : SFleb (S754_zero false) x = SFnonneg x.
Proof.
  destruct x as [s|s| |s m e]; try reflexivity; destruct s; reflexivity.
Qed.

Lemma shr_1_nonneg (mrs : shr_record) :
  (0 <= shr_m mrs)%Z -> (0 <= shr_m (shr_1 mrs))%Z.
Proof.
  destruct mrs as [m r s]. simpl.
  destruct m as [|p|p]; try destruct p; simpl; lia.
Qed.

Lemma iter_pos_shr_1_nonneg (p : positive) :
  forall mrs : shr_record,
    (0 <= shr_m mrs)%Z -> (0 <= shr_m (SpecFloat.iter_pos shr_1 p mrs))%Z.
Proof.
  induction p as [p IH|p IH|]; intros mrs Hm; simpl.
  - apply IH, IH. now apply shr_1_nonneg.
  - now apply IH, IH.
  - now apply shr_1_nonneg.
Qed.

Lemma shr_fexp_nonneg (prec emax m e : Z) (l : location) :
  (0 <= m)%Z -> (0 <= shr_m (fst (shr_fexp prec emax m e l)))%Z.
Proof.
  intros Hm. unfold shr_fexp, shr.
  assert (H0 : (0 <= shr_m (shr_record_of_loc m l))%Z)
    by (destruct l as [|[]]; simpl; auto).
  destruct (fexp prec emax (Zdigits2 m + e) - e)%Z; simpl; auto.
  now apply iter_pos_shr_1_nonneg.
Qed.

Lemma round_nearest_even_nonneg (m : Z) (l : location) :
  (0 <= m)%Z -> (0 <= round_nearest_even m l)%Z.
Proof.
  intros Hm. unfold round_nearest_even. destruct l as [|[]]; auto; try lia.
  destruct (Z.even m); lia.
Qed.

Lemma binary_round_aux_nonneg (prec emax m e : Z) (l : location) :
  (0 <= m)%Z -> SFnonneg (binary_round_aux prec emax false m e l) = true.
Proof.
  intros Hm. unfold binary_round_aux.
  pose proof (shr_fexp_nonneg prec emax m e l Hm) as H1.
  destruct (shr_fexp prec emax m e l) as [mrs' e']. simpl in H1.
  pose proof (shr_fexp_nonneg prec emax _ e' loc_Exact
                (round_nearest_even_nonneg _ (loc_of_shr_record mrs') H1))
    as H2.
  destruct (shr_fexp prec emax _ e' loc_Exact) as [mrs'' e'']. simpl in H2.
  destruct (shr_m mrs'') as [|p|p]; try reflexivity.
  - destruct (e'' <=? emax - prec)%Z; reflexivity.
  - lia.
Qed.

Lemma binary_round_nonneg (prec emax : Z) (m : positive) (e : Z) :
  SFnonneg (binary_round prec emax false m e) = true.
Proof.
  unfold binary_round. destruct (shl_align _ _ _) as [mz ez].
  apply binary_round_aux_nonneg. lia.
Qed.

Lemma SFadd_nonneg (prec emax : Z) (x y : spec_float) :
  SFnonneg x = true -> SFnonneg y = true ->
  SFnonneg (SFadd prec emax x y) = true.
Proof.
  destruct x as [sx|sx| |sx mx ex], y as [sy|sy| |sy my ey]; simpl;
    try discriminate; auto.
  - destruct sx, sy; reflexivity.
  - destruct sx, sy; simpl; intros; try discriminate; auto.
  - destruct sx, sy; simpl; intros; try discriminate.
    apply binary_round_nonneg.
Qed.

Lemma float_add_nonneg (x y : float) :
  (0 <=? x)%float = true -> (0 <=? y)%float = true ->
  (0 <=? x + y)%float = true.
Proof.
  rewrite !leb_spec, add_spec.
  change (Prim2SF 0) with (S754_zero false). rewrite !SFleb_zero.
  apply SFadd_nonneg.
Qed.

#[export] Instance binary64_order : JsNumberOrder float.
Proof.
  split; cbn [num_ltb num_leb num_eqb isFinite binary64].
  - intros x y Hlt. apply float_ltb_key in Hlt as (a & b & Ha & Hb & L).
    apply float_leb_key. exists a, b. auto.
  - intros x y Heq. apply float_eqb_key in Heq as (a & Ha & Hb).
    apply float_leb_key. exists a, a. auto.
  - intros x y. apply bool_true_iff_eq. rewrite !float_eqb_key.
    split; intros (a & Ha & Hb); exists a; auto.
  - intros x y Heq. apply float_eqb_key in Heq as (a & Ha & Hb).
    destruct (x <? y)%float eqn:E; [|reflexivity].
    apply float_ltb_key in E as (a' & b' & Ha' & Hb' & L).
    rewrite Ha in Ha'. rewrite Hb in Hb'.
    injection Ha' as <-. injection Hb' as <-.
    now apply lex_lt_irrefl in L.
  - intros x y Hle. apply float_leb_key in Hle as (a & b & Ha & Hb & [L|E]).
    + left. apply float_ltb_key. now exists a, b.
    + right. apply float_eqb_key. exists a. subst. auto.
  - intros x y Hle. apply float_leb_key in Hle as (a & b & Ha & Hb & _).
    apply float_leb_key. exists a, a. auto.
  - intros x y Hle. apply float_leb_key in Hle as (a & b & Ha & Hb & _).
    apply float_leb_key. exists b, b. auto.
  - intros x. apply bool_true_iff_eq. rewrite float_leb_key, float_eqb_key.
    split.
    + intros (a & b & Ha & Hb & _). now exists a.
    + intros (a & Ha & _). exists a, a. auto.
  - intros x y Hx Hy Hlt.
    apply float_leb_key in Hx as (a & _ & Ha & _ & _).
    apply float_leb_key in Hy as (b & _ & Hb & _ & _).
    apply float_leb_key. exists b, a. repeat split; auto.
    destruct (lex_trichotomy a b) as [L|[E|G]]; auto.
    exfalso. assert (Ht : (x <? y)%float = true)
      by (apply float_ltb_key; now exists a, b).
    congruence.
  - intros x y z Hxy Hyz.
    apply float_leb_key in Hxy as (a & b & Ha & Hb & Hab).
    apply float_leb_key in Hyz as (b' & c & Hb' & Hc & Hbc).
    rewrite Hb in Hb'. injection Hb' as <-.
    apply float_leb_key. exists a, c. repeat split; auto.
    destruct Hab as [L1| ->], Hbc as [L2| <-]; auto.
    left. now apply lex_lt_trans with b.
  - intros x. unfold is_finite, is_nan. intros Hf.
    apply negb_true_iff, orb_false_iff in Hf as [Hn _].
    apply negb_false_iff in Hn.
    apply float_eqb_key in Hn as (a & Ha & _).
    apply float_leb_key. exists a, a. auto.
  - reflexivity.
  - reflexivity.
  - apply float_add_nonneg.
Qed.

(** ** The order of exact arithmetic *)

Lemma Qccompare_cases (a b : Qc) :
  CompareSpec (a = b) (a < b)%Qc (b < a)%Qc (a ?= b)%Qc.
Proof.
  destruct (a ?= b)%Qc eqn:E; constructor.
  - now apply Qceq_alt.
  - now apply Qclt_alt.
  - now apply Qcgt_alt.
Qed.

Lemma Qclt_irrefl (a : Qc) : ~ (a < a)%Qc.
Proof. apply Qcle_not_lt, Qcle_refl. Qed.

Lemma Qccompare_refl (a : Qc) : (a ?= a)%Qc = Eq.
Proof.
  destruct (Qccompare_cases a a) as [_|L|L]; auto;
    now apply Qclt_irrefl in L.
Qed.

Lemma exact_same_eq (x y : exact) : exact_same x y = true -> x = y.
Proof.
  destruct x as [a|], y as [b|]; simpl; try discriminate; auto.
  destruct (Qccompare_cases a b); try discriminate. now subst.
Qed.

Lemma exact_ltb_iff (x y : exact) :
  (x <? y)%js = true <-> exists a b, x = Exact a /\ y = Exact b /\ (a < b)%Qc.
Proof.
  destruct x as [a|], y as [b|]; cbn [num_ltb exact_number exact_cmp];
    try (split; [discriminate | intros (? & ? & ? & ? & _); discriminate]).
  destruct (Qccompare_cases a b) as [E|L|G]; cbn [cmp_lt];
    (split; [try discriminate; intros _; now exists a, b |]);
    intros (a' & b' & Ha & Hb & L');
    injection Ha as <-; injection Hb as <-; auto.
  - subst. now apply Qclt_irrefl in L'.
  - exfalso. apply (Qclt_irrefl a). now apply Qclt_trans with b.
Qed.

Lemma exact_leb_iff (x y : exact) :
  (x <=? y)%js = true <-> exists a b, x = Exact a /\ y = Exact b /\ (a <= b)%Qc.
Proof.
  destruct x as [a|], y as [b|]; cbn [num_leb exact_number exact_cmp];
    try (split; [discriminate | intros (? & ? & ? & ? & _); discriminate]).
  destruct (Qccompare_cases a b) as [E|L|G]; cbn [cmp_le].
  - split; auto. intros _. exists a, b. subst. repeat split. apply Qcle_refl.
  - split; auto. intros _. exists a, b. repeat split. now apply Qclt_le_weak.
  - split; [discriminate|].
    intros (a' & b' & Ha & Hb & L').
    injection Ha as <-; injection Hb as <-.
    exfalso. revert G. now apply Qcle_not_lt.
Qed.

Lemma exact_eqb_iff (x y : exact) :
  (x =? y)%js = true <-> exists a, x = Exact a /\ y = Exact a.
Proof.
  destruct x as [a|], y as [b|]; cbn [num_eqb exact_number exact_cmp];
    try (split; [discriminate | intros (? & ? & ?); discriminate]).
  destruct (Qccompare_cases a b) as [E|L|G]; cbn [cmp_eq].
  - split; auto. intros _. exists a. now subst.
  - split; [discriminate|]. intros (c & Ha & Hb).
    injection Ha as <-. injection Hb as <-. now apply Qclt_irrefl in L.
  - split; [discriminate|]. intros (c & Ha & Hb).
    injection Ha as <-. injection Hb as <-. now apply Qclt_irrefl in G.
Qed.

#[export] Instance exact_order : JsNumberOrder exact.
Proof.
  split.
  - intros x y Hlt. apply exact_ltb_iff in Hlt as (a & b & -> & -> & L).
    apply exact_leb_iff. exists a, b. repeat split. now apply Qclt_le_weak.
  - intros x y Heq. apply exact_eqb_iff in Heq as (a & -> & ->).
    apply exact_leb_iff. exists a, a. repeat split. apply Qcle_refl.
  - intros x y. apply bool_true_iff_eq. rewrite !exact_eqb_iff.
    split; intros (a & Ha & Hb); exists a; auto.
  - intros x y Heq. apply exact_eqb_iff in Heq as (a & -> & ->).
    destruct (Exact a <? Exact a)%js eqn:E; [|reflexivity].
    apply exact_ltb_iff in E as (a' & b' & Ha & Hb & L).
    injection Ha as <-. injection Hb as <-.
    exfalso. revert L. apply Qcle_not_lt, Qcle_refl.
  - intros x y Hle. apply exact_leb_iff in Hle as (a & b & -> & -> & L).
    destruct (Qcle_lt_or_eq _ _ L) as [Hlt|Heq].
    + left. apply exact_ltb_iff. now exists a, b.
    + right. apply exact_eqb_iff. exists a. subst. auto.
  - intros x y Hle. apply exact_leb_iff in Hle as (a & b & -> & -> & _).
    apply exact_leb_iff. exists a, a. repeat split. apply Qcle_refl.
  - intros x y Hle. apply exact_leb_iff in Hle as (a & b & -> & -> & _).
    apply exact_leb_iff. exists b, b. repeat split. apply Qcle_refl.
  - intros x. apply bool_true_iff_eq. rewrite exact_leb_iff, exact_eqb_iff.
    split.
    + intros (a & b & Ha & Hb & _). now exists a.
    + intros (a & Ha & _). exists a, a. repeat split; auto. apply Qcle_refl.
  - intros x y Hx Hy Hlt.
    apply exact_leb_iff in Hx as (a & _ & -> & _ & _).
    apply exact_leb_iff in Hy as (b & _ & -> & _ & _).
    apply exact_leb_iff. exists b, a. repeat split.
    apply Qcnot_lt_le. intros L.
    assert (Ht : (Exact a <? Exact b)%js = true)
      by (apply exact_ltb_iff; now exists a, b).
    congruence.
  - intros x y z Hxy Hyz.
    apply exact_leb_iff in Hxy as (a & b & -> & -> & Hab).
    apply exact_leb_iff in Hyz as (b' & c & Hb' & -> & Hbc).
    injection Hb' as <-.
    apply exact_leb_iff. exists a, c. repeat split.
    now apply Qcle_trans with b.
  - intros [a|]; cbn [isFinite num_leb exact_number exact_cmp];
      [|discriminate].
    intros _. now rewrite Qccompare_refl.
  - reflexivity.
  - reflexivity.
  - intros x y Hx Hy.
    apply exact_leb_iff in Hx as (z & a & Hz & -> & Ha).
    apply exact_leb_iff in Hy as (z' & b & Hz' & -> & Hb).
    injection Hz as <-. injection Hz' as <-.
    apply exact_leb_iff. exists (Q2Qc 0), (a + b)%Qc.
    split; [reflexivity|]. split; [reflexivity|].
    replace (Q2Qc 0) with (Q2Qc 0 + Q2Qc 0)%Qc by ring.
    now apply Qcplus_le_compat.
Qed.

(** ** [d3.extent] *)

Section Extent.

Context {num : Type} `{JsNumberOrder num}.

(** The running minimum and maximum stay ordered, only move outwards, are
    taken from the values and bound every value that is a number. *)
Lemma extent_from_spec (values : list num) :
  forall lo0 hi0 lo hi,
    (lo0 <=? hi0)%js = true ->
    extent_from lo0 hi0 values = (lo, hi) ->
    (lo = lo0 \/ In lo values) /\ (hi = hi0 \/ In hi values) /\
    (lo <=? lo0)%js = true /\ (hi0 <=? hi)%js = true /\
    (lo <=? hi)%js = true /\
    (forall v, In v values -> (v <=? v)%js = true ->
               (lo <=? v)%js = true /\ (v <=? hi)%js = true).
Proof.
  induction values as [|v values IH]; intros lo0 hi0 lo hi Hle Hext.
  - simpl in Hext. injection Hext as <- <-.
    pose proof (leb_number_l _ _ Hle). pose proof (leb_number_r _ _ Hle).
    split; [now left|]. split; [now left|].
    split; [assumption|]. split; [assumption|]. split; [assumption|].
    intros v [].
  - simpl in Hext.
    pose proof (leb_number_l _ _ Hle) as Hlo0.
    pose proof (leb_number_r _ _ Hle) as Hhi0.
    set (lo1 := if (v <? lo0)%js then v else lo0) in *.
    set (hi1 := if (hi0 <? v)%js then v else hi0) in *.
    assert (Hstep : (lo1 <=? hi1)%js = true).
    { subst lo1 hi1.
      destruct (v <? lo0)%js eqn:E1, (hi0 <? v)%js eqn:E2; auto.
      - apply ltb_leb in E1. now apply leb_number_l with lo0.
      - apply ltb_leb in E1. now apply leb_trans with lo0.
      - apply ltb_leb in E2. now apply leb_trans with hi0. }
    destruct (IH _ _ lo hi Hstep Hext) as (Hlo & Hhi & Hlo' & Hhi' & Hlh & Hall).
    assert (Hmin : (lo1 <=? lo0)%js = true).
    { subst lo1. destruct (v <? lo0)%js eqn:E; auto. now apply ltb_leb. }
    assert (Hmax : (hi0 <=? hi1)%js = true).
    { subst hi1. destruct (hi0 <? v)%js eqn:E; auto. now apply ltb_leb. }
    assert (Hv1 : (v <=? v)%js = true -> (lo1 <=? v)%js = true).
    { intros Hv. subst lo1. destruct (v <? lo0)%js eqn:E; auto.
      now apply leb_total. }
    assert (Hv2 : (v <=? v)%js = true -> (v <=? hi1)%js = true).
    { intros Hv. subst hi1. destruct (hi0 <? v)%js eqn:E; auto.
      now apply leb_total. }
    split.
    { destruct Hlo as [->|Hin]; [|right; now right].
      subst lo1. destruct (v <? lo0)%js; [right; now left | now left]. }
    split.
    { destruct Hhi as [->|Hin]; [|right; now right].
      subst hi1. destruct (hi0 <? v)%js; [right; now left | now left]. }
    split; [now apply leb_trans with lo1|].
    split; [now apply leb_trans with hi1|].
    split; [assumption|].
    intros w [<-|Hin] Hw; [|now apply Hall].
    split.
    + apply leb_trans with lo1; auto.
    + apply leb_trans with hi1; auto.
Qed.

Lemma extent_some (values : list num) lo hi :
  extent values = Some (lo, hi) ->
  In lo values /\ In hi values /\ (lo <=? hi)%js = true /\
  (forall v, In v values -> (v <=? v)%js = true ->
             (lo <=? v)%js = true /\ (v <=? hi)%js = true).
Proof.
  induction values as [|v values IH]; simpl; [discriminate|].
  destruct (v <=? v)%js eqn:Ev.
  - intros Hext. injection Hext as Hext.
    destruct (extent_from_spec values v v lo hi Ev Hext)
      as (Hlo & Hhi & Hlo' & Hhi' & Hlh & Hall).
    split; [destruct Hlo as [->|]; auto|].
    split; [destruct Hhi as [->|]; auto|].
    split; [assumption|].
    intros w [<-|Hin] Hw; [now split | now apply Hall].
  - intros Hext. destruct (IH Hext) as (Hlo & Hhi & Hlh & Hall).
    split; [now right|]. split; [now right|]. split; [assumption|].
    intros w [<-|Hin] Hw; [congruence | now apply Hall].
Qed.

Lemma extent_none (values : list num) :
  extent values = None -> Forall (fun v => (v <=? v)%js = false) values.
Proof.
  induction values as [|v values IH]; simpl; [constructor|].
  destruct (v <=? v)%js eqn:Ev; [discriminate|].
  intros Hext. constructor; auto.
Qed.

(** On finite values that are not all missing, the extent is the minimum and
    the maximum. *)
Lemma extent_finite (values : list num) :
  values <> [] -> Forall (fun v => isFinite v = true) values ->
  exists lo hi,
    extent values = Some (lo, hi) /\
    is_minimum lo values /\ is_maximum hi values /\
    isFinite lo = true /\ isFinite hi = true /\ (lo <=? hi)%js = true.
Proof.
  intros Hne Hfin.
  assert (Hnum : forall v, In v values -> (v <=? v)%js = true).
  { intros v Hin. apply finite_number.
    rewrite Forall_forall in Hfin. now apply Hfin. }
  destruct (extent values) as [[lo hi]|] eqn:E.
  - destruct (extent_some _ _ _ E) as (Hlo & Hhi & Hlh & Hall).
    rewrite Forall_forall in Hfin.
    exists lo, hi.
    split; [reflexivity|].
    split; [split; [assumption | intros v Hin; now apply Hall; auto]|].
    split; [split; [assumption | intros v Hin; now apply Hall; auto]|].
    split; [now apply Hfin|]. split; [now apply Hfin | assumption].
  - apply extent_none in E. destruct values as [|v r]; [congruence|].
    inversion E as [|? ? Hv _]; subst.
    rewrite Hnum in Hv by now left. discriminate.
Qed.

End Extent.

(** ** The per-state summary *)

Section Summary.

Context {num : Type} `{JsNumberOrder num}.

Lemma records_of_in (data : list (AccidentRecord num)) d :
  In d data -> In d (records_of (code_of d) data).
Proof.
  intros Hin. unfold records_of. apply filter_In. split; auto.
  apply String.eqb_refl.
Qed.

Lemma accumulate_empty_code (m : JsMap.t (Entry num)) d :
  is_empty (or_empty (state d)) = true -> accumulate m d = m.
Proof.
  intros E. unfold accumulate. now rewrite is_empty_toUpperCase, E.
Qed.






(** Every record with a state code has an entry, under the upper-case code. *)
Lemma buildStateSummary_has (data : list (AccidentRecord num)) d :
  In d data -> is_empty (or_empty (state d)) = false ->
  exists s, JsMap.get (buildStateSummary data) (code_of d) = Some s.
Proof.
  intros Hin Hne. rewrite get_buildStateSummary.
  unfold code_of at 1. rewrite is_empty_toUpperCase, Hne.
  apply records_of_in in Hin.
  destruct (records_of (code_of d) data); [contradiction|]. eauto.
Qed.

(** C3. Every key of the summary is a non-empty upper-case string and no key
    occurs twice; a record whose state code is empty or missing changes
    nothing; records whose codes differ only in letter case are summed in
    one entry, under the upper-case code. *)
Theorem buildStateSummary_keys (data : list (AccidentRecord num)) :
  Forall is_state_key (JsMap.keys (buildStateSummary data)) /\
  NoDup (JsMap.keys (buildStateSummary data)) /\
  (forall before d after,
     data = before ++ d :: after ->
     is_empty (or_empty (state d)) = true ->
     buildStateSummary data = buildStateSummary (before ++ after)) /\
  (forall d1 d2,
     In d1 data -> In d2 data ->
     is_empty (or_empty (state d1)) = false ->
     toUpperCase (or_empty (state d1)) = toUpperCase (or_empty (state d2)) ->
     exists s,
       JsMap.get (buildStateSummary data) (toUpperCase (or_empty (state d1)))
         = Some s /\
       In d1 (records_of (toUpperCase (or_empty (state d1))) data) /\
       In d2 (records_of (toUpperCase (or_empty (state d1))) data) /\
       totalCount s =
         sum_counts (records_of (toUpperCase (or_empty (state d1))) data)).
Proof.
  split; [apply keys_buildStateSummary|].
  split; [apply keys_buildStateSummary|].
  split.
  - intros before d after -> Hd. unfold buildStateSummary.
    rewrite !fold_left_app. simpl. now rewrite accumulate_empty_code.
  - intros d1 d2 H1 H2 Hne Hsame.
    destruct (buildStateSummary_has data d1 H1 Hne) as [s Hs].
    exists s. split; [exact Hs|].
    split; [now apply records_of_in|].
    split.
    + fold (code_of d1). replace (code_of d1) with (code_of d2).
      now apply records_of_in.
    + fold (code_of d1) in *. rewrite get_buildStateSummary in Hs.
      destruct (is_empty (code_of d1)); [discriminate|].
      destruct (records_of (code_of d1) data); [discriminate|].
      now injection Hs as <-.
Qed.

End Summary.

(** ** The scenario of the specification, in binary64 and in exact arithmetic *)

Example ca_records_summary :
  buildStateSummary ca_records =
  [ ("CA"%string,
     {| totalCount := 12%float; avgSeverity := ((7 * 2 + 5 * 3) / 12)%float |}) ].
Proof. reflexivity. Qed.


(** C2. For the two Texas records (100 accidents of severity 2.0, 50 of
    severity 4.0) the summary has the single entry TX with [totalCount] 150
    and [avgSeverity] (100*2 + 50*4) / 150, which is 2.6666666666666665 in
    binary64 and 8/3 in exact arithmetic; with the metric "severity" the
    lookup of "tx" returns that value and the lookup of "NY" returns 0. *)
Theorem texas_scenario (ym1 ym2 : option string) (y1 y2 : float)
    (ym1' ym2' : option string) (y1' y2' : exact) :
  let data := tx_records 100%float 2%float 50%float 4%float ym1 ym2 y1 y2 in
  let summary := buildStateSummary data in
  let data' :=
    tx_records (exact_of_Z 100) (exact_of_Z 2) (exact_of_Z 50) (exact_of_Z 4)
      ym1' ym2' y1' y2' in
  summary =
    [ ("TX"%string,
       {| totalCount := 150%float;
          avgSeverity := 2.6666666666666665%float |}) ] /\
  ((100 * 2 + 50 * 4) / 150)%float = 2.6666666666666665%float /\
  (2.66665 <? 2.6666666666666665)%float = true /\
  (2.6666666666666665 <? 2.66675)%float = true /\
  getMetricValue summary "severity" "tx" = 2.6666666666666665%float /\
  getMetricValue summary "severity" "NY" = 0%float /\
  JsMap.get (buildStateSummary data') "TX" =
    Some {| totalCount := exact_of_Z 150;
            avgSeverity := Exact (Q2Qc (8 # 3)) |} /\
  getMetricValue (buildStateSummary data') "severity" "tx" =
    Exact (Q2Qc (8 # 3)) /\
  getMetricValue (buildStateSummary data') "severity" "NY" = exact_of_Z 0.
Proof.
  intros data summary data'.
  assert (E : JsMap.get (buildStateSummary data') "TX" =
              Some {| totalCount := exact_of_Z 150;
                      avgSeverity := Exact (Q2Qc (8 # 3)) |}).
  { rewrite get_buildStateSummary.
    change (records_of "TX" data') with data'.
    cbn [is_empty data' tx_records].
    f_equal. f_equal; apply exact_same_eq; vm_compute; reflexivity. }
  split; [reflexivity|]. split; [reflexivity|]. split; [reflexivity|].
  split; [reflexivity|]. split; [reflexivity|]. split; [reflexivity|].
  split; [exact E|].
  split.
  - unfold getMetricValue.
    change (toUpperCase "tx") with "TX"%string. now rewrite E.
  - unfold getMetricValue.
    change (toUpperCase "NY") with "NY"%string.
    rewrite get_buildStateSummary. reflexivity.
Qed.

Example d3_format_2f_examples :
  d3_format_2f 2.5%float = Some "2.50"%string /\
  d3_format_2f 2.6666666666666665%float = Some "2.67"%string /\
  d3_format_2f 0.005%float = Some "0.01"%string /\
  d3_format_2f 1.005%float = Some "1.00"%string /\
  d3_format_2f 1234.5%float = Some "1234.50"%string /\
  d3_format_2f (-0.001)%float = Some "0.00"%string.
Proof. vm_compute. repeat split. Qed.

(** ** The colour scale *)

Section Scale.

Context {num : Type} `{JsNumberOrder num}.

Local Open Scope string_scope.

Lemma values_nonempty {V} (m : JsMap.t V) : m <> [] -> JsMap.values m <> [].
Proof. destruct m; simpl; congruence. Qed.

Lemma map_nonempty {A B} (f : A -> B) (l : list A) : l <> [] -> map f l <> [].
Proof. destruct l; simpl; congruence. Qed.

Lemma eqb_number (x : num) : (x <=? x)%js = true -> (x =? x)%js = true.
Proof. now rewrite leb_number. Qed.

(** [d.avgSeverity || 0] is the same number as [d.avgSeverity] unless that is
    NaN. *)
Lemma severity_or_zero_same (s : StateSummary num) :
  (avgSeverity s <=? avgSeverity s)%js = true ->
  (severity_or_zero s =? avgSeverity s)%js = true.
Proof.
  intros Hn. apply eqb_number in Hn.
  unfold severity_or_zero, truthy, is_number. rewrite Hn. simpl.
  destruct (avgSeverity s =? num_zero)%js eqn:E; simpl; auto.
  now rewrite eqb_sym.
Qed.

Lemma severity_or_zero_finite (s : StateSummary num) :
  isFinite (avgSeverity s) = true -> isFinite (severity_or_zero s) = true.
Proof.
  intros Hf. unfold severity_or_zero.
  destruct (truthy (avgSeverity s)); auto. apply zero_finite.
Qed.

Lemma severities_least (values : list (StateSummary num)) lo :
  Forall (fun s => isFinite (avgSeverity s) = true) values ->
  is_minimum lo (map severity_or_zero values) ->
  is_least lo (map avgSeverity values).
Proof.
  rewrite Forall_forall. intros Hfin [Hin Hall]. split.
  - apply in_map_iff in Hin as (s & <- & Hs).
    exists (avgSeverity s). split; [now apply in_map|].
    apply severity_or_zero_same, finite_number; auto.
  - intros v Hv. apply in_map_iff in Hv as (s & <- & Hs).
    apply leb_trans with (severity_or_zero s).
    + apply Hall. now apply in_map.
    + apply eqb_leb, severity_or_zero_same, finite_number; auto.
Qed.

Lemma severities_greatest (values : list (StateSummary num)) hi :
  Forall (fun s => isFinite (avgSeverity s) = true) values ->
  is_maximum hi (map severity_or_zero values) ->
  is_greatest hi (map avgSeverity values).
Proof.
  rewrite Forall_forall. intros Hfin [Hin Hall]. split.
  - apply in_map_iff in Hin as (s & <- & Hs).
    exists (avgSeverity s). split; [now apply in_map|].
    apply severity_or_zero_same, finite_number; auto.
  - intros v Hv. apply in_map_iff in Hv as (s & <- & Hs).
    apply leb_trans with (severity_or_zero s).
    + apply eqb_leb. rewrite eqb_sym.
      apply severity_or_zero_same, finite_number; auto.
    + apply Hall. now apply in_map.
Qed.

(** The extent of a list that repeats one number. *)
Lemma extent_from_constant (v : num) (values : list num) :
  (v <=? v)%js = true -> Forall (fun w => w = v) values ->
  extent_from v v values = (v, v).
Proof.
  intros Hv. induction 1 as [|w values -> _ IH]; simpl; [reflexivity|].
  rewrite (eqb_not_ltb v v) by now apply eqb_number.
  exact IH.
Qed.

Lemma extent_constant (v : num) (values : list num) :
  (v <=? v)%js = true -> values <> [] -> Forall (fun w => w = v) values ->
  extent values = Some (v, v).
Proof.
  intros Hv Hne Hall. destruct Hall as [|w values -> Hall]; [congruence|].
  simpl. rewrite Hv. now rewrite extent_from_constant.
Qed.

(** The two branches of [updateColorScale], with the extent made explicit. *)
Lemma scale_for_count (summary : JsMap.t (StateSummary num)) lo hi :
  extent (map totalCount (JsMap.values summary)) = Some (lo, hi) ->
  isFinite lo = true -> isFinite hi = true ->
  scale_for summary "count" =
  ({| interpolator := interpolateReds;
      domain := (lo, if (hi =? lo)%js then (lo + num_one)%js else hi) |},
   {| min := lo; max := hi |}).
Proof.
  intros E Hlo Hhi. unfold scale_for.
  change (String.eqb "count" "count") with true. cbv iota.
  rewrite E. cbn [option_map fst snd finite_or]. now rewrite Hlo, Hhi.
Qed.

Lemma scale_for_severity (summary : JsMap.t (StateSummary num)) lo hi :
  extent (map severity_or_zero (JsMap.values summary)) = Some (lo, hi) ->
  isFinite lo = true -> isFinite hi = true ->
  scale_for summary "severity" =
  ({| interpolator := interpolateBlues;
      domain :=
        ((lo - num_0_05)%js,
         if (hi + num_0_05 <=? lo - num_0_05)%js
         then (lo - num_0_05 + num_0_1)%js
         else (hi + num_0_05)%js) |},
   {| min := lo; max := hi |}).
Proof.
  intros E Hlo Hhi. unfold scale_for.
  change (String.eqb "severity" "count") with false. cbv iota.
  rewrite E. cbn [option_map fst snd finite_or]. now rewrite Hlo, Hhi.
Qed.

(** The domain and the legend range of the metric "count". *)
Lemma count_scale_any_number (summary : JsMap.t (StateSummary num)) :
  scale_for (JsMap.empty : JsMap.t (StateSummary num)) "count" =
    ({| interpolator := interpolateReds; domain := (num_zero, num_one) |},
     {| min := num_zero; max := num_one |}) /\
  (summary <> [] ->
   Forall (fun s => isFinite (totalCount s) = true) (JsMap.values summary) ->
   exists lo hi,
     is_minimum lo (map totalCount (JsMap.values summary)) /\
     is_maximum hi (map totalCount (JsMap.values summary)) /\
     snd (scale_for summary "count") = {| min := lo; max := hi |} /\
     fst (scale_for summary "count") =
       {| interpolator := interpolateReds;
          domain := (lo, if (hi =? lo)%js then (lo + num_one)%js else hi) |} /\
     ((hi =? lo)%js = false -> (lo <? hi)%js = true) /\
     ((lo <? lo + num_one)%js = true ->
      (fst (domain (fst (scale_for summary "count"))) <?
       snd (domain (fst (scale_for summary "count"))))%js = true)).
Proof.
  split.
  - unfold scale_for. cbn. now rewrite one_not_zero.
  - intros Hne Hfin.
    destruct (extent_finite (map totalCount (JsMap.values summary)))
      as (lo & hi & E & Hmin & Hmax & Hlo & Hhi & Hle).
    { now apply map_nonempty, values_nonempty. }
    { rewrite Forall_map. exact Hfin. }
    exists lo, hi. rewrite (scale_for_count summary lo hi E Hlo Hhi).
    cbn [fst snd domain].
    assert (Hstrict : (hi =? lo)%js = false -> (lo <? hi)%js = true).
    { intros Hneq. destruct (leb_cases _ _ Hle) as [Hlt|Heq]; auto.
      rewrite eqb_sym in Heq. congruence. }
    repeat split; try apply Hmin; try apply Hmax; auto.
    intros Hbump. destruct (hi =? lo)%js; auto.
Qed.

(** C6, as the script computes it.  With the metric "severity": the empty
    summary gives the legend range
    [0, 1]; a non-empty summary with finite averages gives the legend range
    [min, max] of the averages, unpadded, and the domain
    [min - 0.05, max + 0.05], whose upper bound is replaced by
    [(min - 0.05) + 0.1] when the padded maximum is not above the padded
    minimum. *)
Theorem severity_scale (summary : JsMap.t (StateSummary num)) :
  (let none := (JsMap.empty : JsMap.t (StateSummary num)) in
   snd (scale_for none "severity") = {| min := num_zero; max := num_one |} /\
   fst (scale_for none "severity") =
     {| interpolator := interpolateBlues;
        domain :=
          ((num_zero - num_0_05)%js,
           if (num_one + num_0_05 <=? num_zero - num_0_05)%js
           then (num_zero - num_0_05 + num_0_1)%js
           else (num_one + num_0_05)%js) |}) /\
  (summary <> [] ->
   Forall (fun s => isFinite (avgSeverity s) = true) (JsMap.values summary) ->
   exists lo hi,
     is_least lo (map avgSeverity (JsMap.values summary)) /\
     is_greatest hi (map avgSeverity (JsMap.values summary)) /\
     snd (scale_for summary "severity") = {| min := lo; max := hi |} /\
     fst (scale_for summary "severity") =
       {| interpolator := interpolateBlues;
          domain :=
            ((lo - num_0_05)%js,
             if (hi + num_0_05 <=? lo - num_0_05)%js
             then (lo - num_0_05 + num_0_1)%js
             else (hi + num_0_05)%js) |}).
Proof.
  split; [split; reflexivity|].
  intros Hne Hfin.
  destruct (extent_finite (map severity_or_zero (JsMap.values summary)))
    as (lo & hi & E & Hmin & Hmax & Hlo & Hhi & Hle).
  { now apply map_nonempty, values_nonempty. }
  { rewrite Forall_map. revert Hfin. apply Forall_impl.
    apply severity_or_zero_finite. }
  exists lo, hi. rewrite (scale_for_severity summary lo hi E Hlo Hhi).
  split; [now apply severities_least|].
  split; [now apply severities_greatest|].
  split; reflexivity.
Qed.

End Scale.

(** ** The colour scale in binary64 *)

(** Two domains differ when their lower bounds compare different. *)
Lemma domain_neq (d1 d2 : float * float) :
  (fst d1 =? fst d2)%float = false -> (fst d2 =? fst d2)%float = true ->
  d1 <> d2.
Proof. intros E1 E2 ->. congruence. Qed.

(** The claim of C4 as it is written fails: with the single average 2.5 the
    domain is not [2.4, 2.6]. *)
Lemma severity_domain_2_5_is_not_2_4_2_6 :
  domain (fst (scale_for (one_state "TX" 100%float 2.5%float) "severity"))
  <> (2.4%float, 2.6%float).
Proof. apply domain_neq; reflexivity. Qed.

(** C4, as the script computes it.  When every average of a non-empty
    summary is exactly 2.5 and the metric is "severity", the domain of the
    colour scale is [2.5 - 0.05, 2.5 + 0.05], that is [2.45, 2.55] (the
    doubles nearest to them), while the legend range is the unpadded
    [2.5, 2.5] and the legend shows the formatted 2.5 twice, which
    [d3.format(".2f")] prints as "2.50". *)
Theorem severity_scale_at_2_5
    (formatCount formatSeverity : float -> string) (pg : Ui.Page float) :
  Ui.currentMetric pg = "severity"%string ->
  Ui.stateSummary pg <> [] ->
  Forall (fun s => avgSeverity s = 2.5%float) (JsMap.values (Ui.stateSummary pg)) ->
  let pg' := Ui.updateLegend formatCount formatSeverity (Ui.updateColorScale pg) in
  Ui.colorScale pg' =
    Some {| interpolator := interpolateBlues;
            domain := (2.45%float, 2.55%float) |} /\
  (2.5 - 0.05 = 2.45)%float /\ (2.5 + 0.05 = 2.55)%float /\
  Ui.legendRange pg' = {| min := 2.5%float; max := 2.5%float |} /\
  Ui.legend_min_text (Ui.legend pg') = formatSeverity 2.5%float /\
  Ui.legend_max_text (Ui.legend pg') = formatSeverity 2.5%float /\
  d3_format_2f 2.5%float = Some "2.50"%string.
Proof.
  intros Hmetric Hne Hall pg'.
  assert (E : scale_for (Ui.stateSummary pg) "severity" =
              ({| interpolator := interpolateBlues;
                  domain := (2.45%float, 2.55%float) |},
               {| min := 2.5%float; max := 2.5%float |})).
  { rewrite (scale_for_severity _ 2.5%float 2.5%float); try reflexivity.
    apply extent_constant; try reflexivity.
    - now apply map_nonempty, values_nonempty.
    - rewrite Forall_map. revert Hall. apply Forall_impl.
      intros s Hs. unfold severity_or_zero. rewrite Hs. reflexivity. }
  subst pg'. unfold Ui.updateLegend, Ui.updateColorScale.
  rewrite Hmetric, E.
  cbn [Ui.colorScale Ui.legendRange Ui.legend Ui.legend_min_text
       Ui.legend_max_text Ui.currentMetric min max].
  change (String.eqb "severity" "count") with false. cbv iota.
  repeat split; vm_compute; reflexivity.
Qed.

Lemma severity_scale_at_2_5_witness :
  let pg' := Ui.updateLegend formatSeverity_d3 formatSeverity_d3
               (Ui.updateColorScale page_2_5) in
  Ui.colorScale pg' =
    Some {| interpolator := interpolateBlues;
            domain := (2.45%float, 2.55%float) |} /\
  (2.5 - 0.05 = 2.45)%float /\ (2.5 + 0.05 = 2.55)%float /\
  Ui.legendRange pg' = {| min := 2.5%float; max := 2.5%float |} /\
  Ui.legend_min_text (Ui.legend pg') = formatSeverity_d3 2.5%float /\
  Ui.legend_max_text (Ui.legend pg') = formatSeverity_d3 2.5%float /\
  d3_format_2f 2.5%float = Some "2.50"%string.
Proof.
  apply (severity_scale_at_2_5 formatSeverity_d3 formatSeverity_d3 page_2_5).
  - reflexivity.
  - discriminate.
  - repeat constructor.
Defined.


Example count_scale_three_states :
  scale_for three_states "count" =
  ({| interpolator := interpolateReds; domain := (150%float, 1200%float) |},
   {| min := 150%float; max := 1200%float |}).
Proof. reflexivity. Qed.

(** Why the totals are taken finite: an infinite total is replaced by the
    fallback of its own bound only, and the domain is no longer the extent. *)
Example count_scale_infinite_total :
  scale_for infinite_total "count" =
  ({| interpolator := interpolateReds; domain := (5%float, 1%float) |},
   {| min := 5%float; max := 1%float |}).
Proof. reflexivity. Qed.

(** The claim of C6 as it is written fails for a summary that the program
    builds: the weighted sum of 2^1023 accidents of severity 4 overflows, the
    average of that state is infinite, and [Number.isFinite] replaces the
    maximum by 1.  The legend range is then [2, 1], which is not the extent
    [2, Infinity] of the averages, and the domain is [2 - 0.05, 2 - 0.05 +
    0.1], not the padded extent. *)
Lemma severity_legend_with_infinite_average :
  let summary :=
    buildStateSummary
      [ {| state := Some "CA"%string; year_month := Some "2016-02"%string;
           year := 2016%float; count_accidents := 5%float;
           avg_severity := 2%float |};
        huge_record ] in
  map avgSeverity (JsMap.values summary) = [ 2%float; infinity ] /\
  snd (scale_for summary "severity") = {| min := 2%float; max := 1%float |} /\
  domain (fst (scale_for summary "severity")) = (1.95%float, 2.05%float) /\
  (max (snd (scale_for summary "severity")) <?
   min (snd (scale_for summary "severity")))%float = true.
Proof. repeat split. Qed.

(** Why the averages are taken finite: an infinite average is replaced by
    the fallback of its own bound only. *)
Example severity_scale_infinite_average :
  scale_for
    [ ("CA"%string, {| totalCount := 5%float; avgSeverity := 2%float |});
      ("TX"%string,
       {| totalCount := 0x1p+1023%float; avgSeverity := infinity |}) ]
    "severity" =
  ({| interpolator := interpolateBlues;
      domain := (1.95%float, 2.05%float) |},
   {| min := 2%float; max := 1%float |}).
Proof. reflexivity. Qed.

Lemma severity_scale_witness :
  exists lo hi,
    is_least lo (map avgSeverity (JsMap.values three_states)) /\
    is_greatest hi (map avgSeverity (JsMap.values three_states)) /\
    snd (scale_for three_states "severity") = {| min := lo; max := hi |} /\
    fst (scale_for three_states "severity") =
      {| interpolator := interpolateBlues;
         domain :=
           ((lo - num_0_05)%js,
            if (hi + num_0_05 <=? lo - num_0_05)%js
            then (lo - num_0_05 + num_0_1)%js
            else (hi + num_0_05)%js) |}.
Proof.
  apply (proj2 (severity_scale three_states)).
  - discriminate.
  - repeat constructor.
Defined.

Example severity_scale_three_states :
  scale_for three_states "severity" =
  ({| interpolator := interpolateBlues;
      domain := ((2.25 - 0.05)%float, (2.6666666666666665 + 0.05)%float) |},
   {| min := 2.25%float; max := 2.6666666666666665%float |}).
Proof. reflexivity. Qed.

(** The empty summary in binary64: legend range [0, 1], padded domain. *)
Example severity_scale_empty_binary64 :
  scale_for (JsMap.empty : JsMap.t (StateSummary float)) "severity" =
  ({| interpolator := interpolateBlues;
      domain := ((0 - 0.05)%float, (1 + 0.05)%float) |},
   {| min := 0%float; max := 1%float |}).
Proof. reflexivity. Qed.

(** A padded maximum that is not above the padded minimum: from 2^53 on the
    padding is absorbed and the forced span of 0.1 is absorbed too. *)
Example severity_scale_forced_span :
  scale_for (one_state "TX" 1%float 1e17%float) "severity" =
  ({| interpolator := interpolateBlues; domain := (1e17%float, 1e17%float) |},
   {| min := 1e17%float; max := 1e17%float |}).
Proof. reflexivity. Qed.

(** ** The row parser *)

Section ParserFacts.

Context {num : Type} `{JsNumber num}.

Local Open Scope string_scope.

(** C7, as the script does it.  The parser converts every row field by
    field: [state] and [year_month] are kept as they are in the row, and the
    three fields [year], [count_accidents] and [avg_severity] are the results
    of unary plus on the row's fields; these three are the number-typed keys
    of the record. *)
Theorem stateMonthParserFn_fields
    (toNumber : option string -> num) (d : CsvRow) :
  let r := stateMonthParserFn toNumber d in
  map fst (record_fields r) =
    [ "state"; "year_month"; "year"; "count_accidents"; "avg_severity" ] /\
  property (record_fields r) "state" = property (row_fields d) "state" /\
  property (record_fields r) "year_month" =
    property (row_fields d) "year_month" /\
  year r = toNumber (csv_year d) /\
  count_accidents r = toNumber (csv_count_accidents d) /\
  avg_severity r = toNumber (csv_avg_severity d) /\
  keys_of_type "number" (record_fields r) =
    [ "year"; "count_accidents"; "avg_severity" ] /\
  incl (keys_of_type "string" (record_fields r)) [ "state"; "year_month" ].
Proof.
  intros r. subst r.
  destruct d as [[st|] [ym|] y c a];
    (do 7 (split; [reflexivity|]));
    unfold keys_of_type, record_fields, stateMonthParserFn; simpl;
    intros k Hk; simpl in *; tauto.
Qed.

End ParserFacts.

(** The claim of C7 as it is written fails: the parser returns three
    number-typed fields, not two, whatever unary plus computes. *)
Lemma parser_not_two_numeric_fields :
  ~ (forall (toNumber : option string -> float) (d : CsvRow),
       List.length
         (keys_of_type "number" (record_fields (stateMonthParserFn toNumber d)))
       = 2%nat).
Proof.
  intros Hall.
  specialize (Hall (fun _ => nan)
                (Build_CsvRow (Some "TX") (Some "2016-02") (Some "2016")
                              (Some "100") (Some "2.0"))%string).
  discriminate Hall.
Qed.

(** ** Selection *)

Section Selection.

Context {num : Type} `{JsNumber num}.

Local Open Scope string_scope.

Lemma filter_selected_deselected (ps : list (Ui.Polygon num)) :
  filter Ui.selected (map (Ui.classed_selected false) ps) = [].
Proof. induction ps as [|p ps IH]; simpl; auto. Qed.

Lemma select_at_length (ps : list (Ui.Polygon num)) :
  forall i, List.length (Ui.select_at i ps) = List.length ps.
Proof.
  induction ps as [|p ps IH]; intros [|i]; simpl; auto.
Qed.

(** After deselecting all and selecting the polygon at [i], exactly that
    polygon is selected. *)
Lemma select_at_deselected (ps : list (Ui.Polygon num)) :
  forall i p,
    nth_error ps i = Some p ->
    List.length
      (filter Ui.selected
         (Ui.select_at i (map (Ui.classed_selected false) ps))) = 1%nat /\
    forall j q,
      nth_error (Ui.select_at i (map (Ui.classed_selected false) ps)) j
        = Some q ->
      Ui.selected q = Nat.eqb j i /\
      nth_error (map Ui.datum ps) j = Some (Ui.datum q).
Proof.
  induction ps as [|p0 ps IH]; intros [|i] p Hnth; simpl in Hnth;
    try discriminate.
  - simpl. rewrite filter_selected_deselected. split; [reflexivity|].
    intros [|j] q Hq; simpl in Hq.
    + injection Hq as <-. split; reflexivity.
    + split.
      * rewrite nth_error_map in Hq.
        destruct (nth_error ps j); [|discriminate].
        now injection Hq as <-.
      * simpl. rewrite nth_error_map in Hq. rewrite nth_error_map.
        destruct (nth_error ps j); [|discriminate].
        now injection Hq as <-.
  - destruct (IH i p Hnth) as [Hcount Hall]. simpl. split; [exact Hcount|].
    intros [|j] q Hq; simpl in Hq.
    + injection Hq as <-. split; reflexivity.
    + apply Hall in Hq. exact Hq.
Qed.

(** C8. A click on the polygon at index [i]: when the state code extracted
    from its feature is not empty, [selectedState] becomes that code, exactly
    one polygon is selected afterwards and it is the clicked one; when the
    code is empty the page is unchanged. *)
Theorem click_selects_one (pg : Ui.Page num) (i : nat) (p : Ui.Polygon num) :
  nth_error (Ui.polygons pg) i = Some p ->
  let code := extractStateCode (Ui.datum p) in
  (is_empty code = false ->
   Ui.selectedState (Ui.on_click i pg) = code /\
   Ui.selected_count (Ui.on_click i pg) = 1%nat /\
   (forall j q, nth_error (Ui.polygons (Ui.on_click i pg)) j = Some q ->
                Ui.selected q = Nat.eqb j i) /\
   map Ui.datum (Ui.polygons (Ui.on_click i pg)) =
     map Ui.datum (Ui.polygons pg)) /\
  (is_empty code = true -> Ui.on_click i pg = pg).
Proof.
  intros Hnth code. unfold Ui.on_click, Ui.selected_count. rewrite Hnth.
  fold code. split; intros Hcode; rewrite Hcode; [|reflexivity].
  cbn [Ui.selectedState Ui.polygons].
  destruct (select_at_deselected (Ui.polygons pg) i p Hnth) as [Hcount Hall].
  split; [reflexivity|]. split; [exact Hcount|]. split.
  - intros j q Hq. now apply Hall.
  - apply nth_error_ext. intros j.
    rewrite nth_error_map.
    destruct (nth_error (Ui.select_at i _) j) as [q|] eqn:E.
    + apply Hall in E. simpl. symmetry. apply E.
    + simpl. symmetry. apply nth_error_None. rewrite length_map.
      apply nth_error_None in E.
      now rewrite select_at_length, length_map in E.
Qed.

(** The metric-change handler keeps the selection. *)
Lemma on_metric_change_polygons
    (formatCount formatSeverity : num -> string) (value : string)
    (pg : Ui.Page num) :
  map Ui.selected
    (Ui.polygons (Ui.on_metric_change formatCount formatSeverity value pg)) =
  map Ui.selected (Ui.polygons pg) /\
  map Ui.datum
    (Ui.polygons (Ui.on_metric_change formatCount formatSeverity value pg)) =
  map Ui.datum (Ui.polygons pg).
Proof.
  unfold Ui.on_metric_change, Ui.updateMapColors, Ui.with_polygons.
  cbn [Ui.polygons].
  unfold Ui.updateLegend, Ui.updateColorScale.
  destruct (scale_for _ _) as [scale range]. cbn [Ui.polygons].
  unfold Ui.updateMetricDescription. cbn [Ui.polygons].
  rewrite !map_map. split; reflexivity.
Qed.

End Selection.

(** ** Start-up *)

Section Startup.

Context {num : Type} `{JsNumber num}.

Variable formatCount : num -> string.
Variable formatSeverity : num -> string.

Local Open Scope string_scope.

Lemma on_load_state (data : list (AccidentRecord num))
    (features : list (Feature num)) (pg : Ui.Page num) :
  Ui.stateSummary (Ui.on_load formatCount formatSeverity data features pg) =
    buildStateSummary data /\
  Ui.selectedState (Ui.on_load formatCount formatSeverity data features pg) =
    Ui.default_selection (buildStateSummary data) (Ui.selectedState pg).
Proof.
  unfold Ui.on_load, Ui.initMap, Ui.with_polygons, Ui.updateLegend,
    Ui.updateColorScale.
  destruct (scale_for _ _) as [scale range]. split; reflexivity.
Qed.

(** C9, as the script does it.  After loading, the selected state is "CA"
    when the summary has the key "CA", and otherwise the first key of the
    summary; when the summary has no key at all it stays "CA".  Changing the
    metric changes neither the selected state nor which polygons are
    selected. *)
Theorem initial_selection (data : list (AccidentRecord num))
    (features : list (Feature num)) (value : string) (pg : Ui.Page num) :
  let summary := buildStateSummary data in
  let loaded :=
    Ui.on_load formatCount formatSeverity data features Ui.initial in
  Ui.stateSummary loaded = summary /\
  (JsMap.has summary "CA" = true -> Ui.selectedState loaded = "CA") /\
  (JsMap.has summary "CA" = false ->
   forall firstKey rest,
     JsMap.keys summary = firstKey :: rest ->
     Ui.selectedState loaded = firstKey) /\
  (JsMap.keys summary = [] -> Ui.selectedState loaded = "CA") /\
  Ui.selectedState (Ui.on_metric_change formatCount formatSeverity value pg) =
    Ui.selectedState pg /\
  map Ui.selected
    (Ui.polygons (Ui.on_metric_change formatCount formatSeverity value pg)) =
    map Ui.selected (Ui.polygons pg).
Proof.
  intros summary loaded.
  destruct (on_load_state data features Ui.initial) as [Hsum Hsel].
  fold loaded in Hsum, Hsel. fold summary in Hsum, Hsel.
  cbn [Ui.selectedState Ui.initial] in Hsel.
  split; [exact Hsum|]. rewrite Hsel. unfold Ui.default_selection.
  split; [intros ->; reflexivity|].
  split.
  - intros -> firstKey rest Hkeys. rewrite Hkeys.
    destruct (keys_buildStateSummary data) as [Hks _].
    fold summary in Hks. rewrite Hkeys in Hks.
    inversion Hks as [|? ? [Hne _] _]; subst. now rewrite Hne.
  - split.
    + intros Hkeys. rewrite Hkeys. destruct (JsMap.has summary "CA"); reflexivity.
    + split; [|apply on_metric_change_polygons].
      unfold Ui.on_metric_change, Ui.updateMapColors, Ui.with_polygons,
        Ui.updateLegend, Ui.updateColorScale.
      destruct (scale_for _ _) as [scale range]. reflexivity.
Qed.

End Startup.

(** The claim of C9 as it is written fails on an input without records: "CA"
    is not a key of the summary, and the selected state is "CA", which is not
    the first key, since there is none. *)
Lemma default_selection_without_keys :
  let summary := buildStateSummary ([] : list (AccidentRecord float)) in
  JsMap.has summary "CA" = false /\
  Ui.default_selection summary "CA" = "CA"%string /\
  hd_error (JsMap.keys summary) <> Some (Ui.default_selection summary "CA").
Proof. repeat split. discriminate. Qed.

Example extractStateCode_examples :
  map (fun p => extractStateCode (Ui.datum p)) three_polygons =
  [ "TX"%string; ""%string; "CA"%string ].
Proof. reflexivity. Qed.

Lemma click_selects_one_witness :
  let code := "CA"%string in
  (is_empty code = false ->
   Ui.selectedState (Ui.on_click 2 clickable_page) = code /\
   Ui.selected_count (Ui.on_click 2 clickable_page) = 1%nat /\
   (forall j q,
      nth_error (Ui.polygons (Ui.on_click 2 clickable_page)) j = Some q ->
      Ui.selected q = Nat.eqb j 2) /\
   map Ui.datum (Ui.polygons (Ui.on_click 2 clickable_page)) =
     map Ui.datum (Ui.polygons clickable_page)) /\
  (is_empty code = true ->
   Ui.on_click 2 clickable_page = clickable_page).
Proof.
  apply (click_selects_one clickable_page 2
           {| Ui.datum := feature_of "STATE" " CA "; Ui.fill := None;
              Ui.selected := false |}).
  reflexivity.
Defined.

Example click_without_code_changes_nothing :
  Ui.on_click 1 clickable_page = clickable_page.
Proof. reflexivity. Qed.

(** ** Bounds of the summary *)

Section Bounds.

Local Open Scope Qc_scope.

Lemma Q2Qc_inject_Z_nonneg (n : Z) : (0 <= n)%Z -> 0 <= Q2Qc (inject_Z n).
Proof.
  intros Hn. unfold Qcle. cbn [this Q2Qc]. rewrite !Qred_correct.
  unfold Qle. simpl. lia.
Qed.

(** The running sums stay rationals with [0 <= T <= W <= 4 T]. *)
Lemma fold_exact_bounds (rs : list (AccidentRecord exact)) :
  Forall well_formed_exact rs ->
  forall T W : Qc,
    0 <= T -> T <= W -> W <= Q2Qc 4 * T ->
    exists T' W' : Qc,
      fold_left (fun a d => (a + count_accidents d)%js) rs (Exact T)
        = Exact T' /\
      fold_left (fun a d => (a + avg_severity d * count_accidents d)%js) rs
        (Exact W) = Exact W' /\
      0 <= T' /\ T' <= W' /\ W' <= Q2Qc 4 * T'.
Proof.
  induction 1 as [|d rs [(n & Hn & Hc) (q & Hq & Hq1 & Hq4)] _ IH];
    intros T W HT HTW HW4; simpl.
  - exists T, W. auto.
  - rewrite Hc, Hq. unfold exact_of_Z.
    cbn [num_add num_mul exact_number exact_lift2].
    set (c := Q2Qc (inject_Z n)).
    assert (Hc0 : 0 <= c) by now apply Q2Qc_inject_Z_nonneg.
    apply IH.
    + replace 0 with (0 + 0) by ring. now apply Qcplus_le_compat.
    + apply Qcplus_le_compat; auto.
      replace c with (Q2Qc 1 * c) at 1 by ring.
      now apply Qcmult_le_compat_r.
    + replace (Q2Qc 4 * (T + c)) with (Q2Qc 4 * T + Q2Qc 4 * c) by ring.
      apply Qcplus_le_compat; auto.
      now apply Qcmult_le_compat_r.
Qed.

Lemma Qcdiv_bounds (T W : Qc) :
  0 < T -> T <= W -> W <= Q2Qc 4 * T ->
  Q2Qc 1 <= W / T /\ W / T <= Q2Qc 4.
Proof.
  intros HT HTW HW4.
  assert (Hne : T <> 0).
  { intros ->. now apply Qclt_irrefl in HT. }
  assert (E : W / T * T = W) by now apply test_field.
  split; apply Qcmult_lt_0_le_reg_r with T; auto; rewrite E.
  - now replace (Q2Qc 1 * T) with T by ring.
  - exact HW4.
Qed.

(** In exact arithmetic the entries of well-formed records are rationals
    within the bounds. *)
Lemma summary_entry_exact
    (data : list (AccidentRecord exact)) (code : string)
    (s : StateSummary exact) :
  Forall well_formed_exact data ->
  JsMap.get (buildStateSummary data) code = Some s ->
  exists t a : Qc,
    totalCount s = Exact t /\ avgSeverity s = Exact a /\
    0 <= t /\
    (0 < t -> Q2Qc 1 <= a /\ a <= Q2Qc 4) /\
    (t = 0 -> a = 0).
Proof.
  intros Hwf. rewrite get_buildStateSummary.
  destruct (is_empty code); [discriminate|].
  destruct (records_of code data) as [|r rs] eqn:E; [discriminate|].
  intros Hs. injection Hs as <-. cbn [totalCount avgSeverity].
  assert (Hrs : Forall well_formed_exact (r :: rs)).
  { rewrite <- E. unfold records_of. rewrite Forall_forall in *.
    intros d Hd. apply filter_In in Hd. now apply Hwf. }
  destruct (fold_exact_bounds (r :: rs) Hrs 0 0) as (T & W & HT & HW & H0 & H1 & H4).
  { apply Qcle_refl. }
  { apply Qcle_refl. }
  { replace (Q2Qc 4 * 0) with 0 by ring. apply Qcle_refl. }
  unfold weighted_mean, sum_counts, sum_weighted.
  change (@num_zero exact _) with (Exact 0).
  rewrite HT, HW. exists T.
  cbn [num_ltb num_div exact_number exact_cmp exact_div].
  destruct (Qccompare_cases 0 T) as [Heq|Hlt|Hgt]; cbn [cmp_lt].
  - exists 0. subst T.
    split; [reflexivity|]. split; [reflexivity|]. split; [exact H0|].
    split; [|reflexivity].
    intros Hlt. now apply Qclt_irrefl in Hlt.
  - destruct (Qccompare_cases T 0) as [Heq|Hlt'|Hgt'].
    + subst T. now apply Qclt_irrefl in Hlt.
    + exfalso. apply (Qclt_irrefl 0). now apply Qclt_trans with T.
    + exists (W / T).
      split; [reflexivity|]. split; [reflexivity|]. split; [exact H0|].
      split; [intros _; now apply Qcdiv_bounds|].
      intros ->. now apply Qclt_irrefl in Hlt.
  - exfalso. revert Hgt. now apply Qcle_not_lt.
Qed.



End Bounds.

(** ** Rounding in binary64

    What the kernel's specification of the IEEE-754 operations computes on
    doubles that are at least 0, in whole units: the sum is the rounded sum
    of the units, a product with a factor between 1 and 4 lies between the
    other factor and four times it, and the quotient of two values of which
    the first is between the second and four times the second lies between
    1 and 4.  Rounding is monotone and commutes with the multiplication by
    four. *)

Section Rounding.

Local Open Scope Z_scope.

(** *** Powers of two and digits *)












(** *** Rounding to nearest, ties to even, on integers *)













(** *** The shift of [binary_round_aux] *)







(** *** The value of a double in units of the least positive double *)










(** *** Valid doubles and their order *)






(** *** Addition *)











(** *** Multiplication by a factor between 1 and 4 *)




(** *** Division of a value by one that is between a quarter of it and it *)




(** *** The same facts on the primitive doubles *)














(** *** The running sums of one state in binary64 *)









End Rounding.



Lemma well_formed_exact_record (code : string) (count : Z) (severity : Q) :
  (0 <=? count)%Z = true ->
  (Qle_bool 1 severity && Qle_bool severity 4)%bool = true ->
  well_formed_exact (exact_record code count severity).
Proof.
  intros Hc Hs. apply andb_true_iff in Hs as [H1 H4].
  apply Qle_bool_iff in H1, H4. split.
  - exists count. split; [now apply Z.leb_le | reflexivity].
  - exists (Q2Qc severity). split; [reflexivity|].
    unfold Qcle; cbn [this Q2Qc]; rewrite !Qred_correct. split; assumption.
Qed.


(** The same bounds when nothing is rounded: the scenario in exact
    arithmetic. *)
Example summary_bounds_exact_data :
  exists t a : Qc,
    totalCount {| totalCount := exact_of_Z 150;
                  avgSeverity := Exact (Q2Qc (8 # 3)) |} = Exact t /\
    avgSeverity {| totalCount := exact_of_Z 150;
                   avgSeverity := Exact (Q2Qc (8 # 3)) |} = Exact a /\
    (0 <= t)%Qc /\
    ((0 < t)%Qc -> (Q2Qc 1 <= a)%Qc /\ (a <= Q2Qc 4)%Qc) /\
    (t = 0%Qc -> a = 0%Qc).
Proof.
  apply (summary_entry_exact exact_data "TX"%string).
  - repeat constructor; apply well_formed_exact_record; reflexivity.
  - rewrite get_buildStateSummary.
    change (records_of "TX" exact_data)
      with [exact_record "TX" 100 2; exact_record "tx" 50 4].
    cbn [is_empty]. f_equal.
    f_equal; apply exact_same_eq; vm_compute; reflexivity.
Qed.


(** When the total overflows as well, the average is NaN. *)
Example avgSeverity_nan_binary64 :
  buildStateSummary two_huge_records =
  [ ("TX"%string, {| totalCount := infinity; avgSeverity := nan |}) ].
Proof. reflexivity. Qed.

(** * Further properties *)

(** ** State code and state name of a feature *)

Section Features.

Context {num : Type} `{JsNumber num}.

Local Open Scope string_scope.

Lemma trimStart_head (s : string) : head_is_space (trimStart s) = false.
Proof.
  induction s as [|c r IH]; simpl; auto.
  destruct (is_space c) eqn:E; simpl; auto.
Qed.

Lemma trimEnd_head (s : string) :
  head_is_space s = false -> head_is_space (trimEnd s) = false.
Proof.
  destruct s as [|c r]; simpl; auto. intros Hc.
  destruct (trimEnd r); simpl; auto. now rewrite Hc.
Qed.

Lemma trimEnd_last (s : string) : last_is_space (trimEnd s) = false.
Proof.
  induction s as [|c r IH]; simpl; auto.
  destruct (trimEnd r) as [|c' r'] eqn:E.
  - destruct (is_space c) eqn:Hc; simpl; auto.
  - exact IH.
Qed.

Lemma trimStart_fixed (s : string) :
  head_is_space s = false -> trimStart s = s.
Proof. destruct s as [|c r]; simpl; auto. now intros ->. Qed.

Lemma trimEnd_fixed (s : string) : last_is_space s = false -> trimEnd s = s.
Proof.
  induction s as [|c r IH]; simpl; auto.
  destruct r as [|c' r'].
  - simpl. now intros ->.
  - intros Hl. rewrite (IH Hl). reflexivity.
Qed.

Lemma trim_trimmed (s : string) :
  head_is_space (trim s) = false /\ last_is_space (trim s) = false /\
  trim (trim s) = trim s.
Proof.
  assert (Hh : head_is_space (trim s) = false)
    by apply trimEnd_head, trimStart_head.
  assert (Hl : last_is_space (trim s) = false) by apply trimEnd_last.
  split; [exact Hh|]. split; [exact Hl|].
  unfold trim at 1. rewrite (trimStart_fixed _ Hh). now apply trimEnd_fixed.
Qed.

Lemma find_usable_code (candidates : list (JsValue num)) :
  match find usable_code candidates with
  | Some (JsString s) => is_empty (trim s) = false
  | Some _ => False
  | None => Forall (fun c => usable_code c = false) candidates
  end.
Proof.
  induction candidates as [|c r IH]; simpl; [constructor|].
  destruct (usable_code c) eqn:E.
  - destruct c; simpl in E; try discriminate.
    now apply negb_true_iff in E.
  - destruct (find usable_code r) as [[]|]; auto.
Qed.

(** The extracted code has no white space at either end, and it is empty
    exactly when none of the eight candidate properties is a string with
    something other than white space in it. *)
Theorem extractStateCode_trimmed (feature : Feature num) :
  let props := match properties feature with Some p => p | None => [] end in
  let code := extractStateCode feature in
  head_is_space code = false /\ last_is_space code = false /\
  trim code = code /\
  (is_empty code = true <->
   Forall (fun k => usable_code (property props k) = false) code_candidates).
Proof.
  intros props code. subst code. unfold extractStateCode. fold props.
  split; [apply trim_trimmed|]. split; [apply trim_trimmed|].
  split; [apply trim_trimmed|].
  pose proof (find_usable_code (map (property props) code_candidates)) as Hf.
  destruct (find usable_code (map (property props) code_candidates))
    as [v|] eqn:E.
  - destruct v; try contradiction. rewrite Hf. split; [discriminate|].
    intros Hall. apply find_some in E as [Hin Hu].
    apply in_map_iff in Hin as (k & Hk & Hin).
    rewrite Forall_forall in Hall. specialize (Hall k Hin).
    rewrite Hk in Hall. congruence.
  - split; [intros _|reflexivity].
    rewrite Forall_map in Hf. exact Hf.
Qed.

(** The candidates are tried in their order: the first property that is a
    string with something other than white space in it gives the code. *)
Theorem extractStateCode_first_usable
    (props : list (string * JsValue num)) (before after : list string)
    (k s : string) :
  code_candidates = (before ++ k :: after)%list ->
  Forall (fun k' => usable_code (property props k') = false) before ->
  property props k = JsString s ->
  is_empty (trim s) = false ->
  extractStateCode {| properties := Some props |} = trim s.
Proof.
  intros Hsplit Hbefore Hk Hs. unfold extractStateCode.
  cbn [properties]. rewrite Hsplit, map_app. cbn [map].
  assert (Hfind :
    forall rest,
      find usable_code (map (property props) before ++ rest)%list =
      find usable_code rest).
  { intros rest. clear Hsplit.
    induction Hbefore as [|k' l Hk' _ IH]; simpl; auto.
    rewrite Hk'. exact IH. }
  rewrite Hfind. cbn [find]. rewrite Hk. cbn [usable_code].
  rewrite Hs. reflexivity.
Qed.

Section Name.

Variable numberToString : num -> string.

Lemma js_or_truthy (a b : JsValue num) :
  js_truthy b = true -> js_truthy (js_or a b) = true.
Proof. intros Hb. unfold js_or. destruct (js_truthy a) eqn:E; auto. Qed.

Lemma js_or_left (a b : JsValue num) : js_truthy a = true -> js_or a b = a.
Proof. intros Ha. unfold js_or. now rewrite Ha. Qed.

Lemma js_or_right (a b : JsValue num) : js_truthy a = false -> js_or a b = b.
Proof. intros Ha. unfold js_or. now rewrite Ha. Qed.

Lemma js_toString_truthy (v : JsValue num) :
  js_truthy v = true -> is_primitive v = true ->
  exists name, js_toString numberToString v = Some name.
Proof. destruct v; simpl; try discriminate; eauto. Qed.

(** The value that [extractStateName] converts is the first truthy one of
    [NAME], [NAME10], [name] and [state_name], the extracted code when none
    of them is truthy, and "State" when the code is empty too.  The call
    returns a string when the four properties are primitive values, and a
    [NAME] that is a non-empty string is returned whatever else the feature
    has.  It throws when the value it converts is an object with an own
    property [toString]: such a [NAME] is truthy, and what JSON can put
    there is not a function. *)
Theorem extractStateName_result (feature : Feature num) :
  let props := match properties feature with Some p => p | None => [] end in
  let names :=
    map (property props) [ "NAME"; "NAME10"; "name"; "state_name" ] in
  let code := extractStateCode feature in
  extractStateName numberToString feature =
    js_toString numberToString
      match find js_truthy names with
      | Some v => v
      | None => JsString (if is_empty code then "State" else code)
      end /\
  (Forall (fun v => is_primitive v = true) names ->
   exists name, extractStateName numberToString feature = Some name) /\
  (forall s, property props "NAME" = JsString s -> is_empty s = false ->
             extractStateName numberToString feature = Some s) /\
  (forall fields, property props "NAME" = JsObject fields ->
                  extractStateName numberToString feature =
                    if has_own fields "toString" then None
                    else Some "[object Object]").
Proof.
  intros props names code.
  assert (E : (extractStateName numberToString feature =
               js_toString numberToString
                 match find js_truthy names with
                 | Some v => v
                 | None => JsString (if is_empty code then "State" else code)
                 end)%type).
  { unfold extractStateName. fold props. fold code. f_equal.
    subst names. cbn [map find].
    destruct (js_truthy (property props "NAME")) eqn:E1.
    { now rewrite !(js_or_left (property props "NAME")) by exact E1. }
    rewrite (js_or_right _ _ E1).
    destruct (js_truthy (property props "NAME10")) eqn:E2.
    { now rewrite !(js_or_left (property props "NAME10")) by exact E2. }
    rewrite (js_or_right _ _ E2).
    destruct (js_truthy (property props "name")) eqn:E3.
    { now rewrite !(js_or_left (property props "name")) by exact E3. }
    rewrite (js_or_right _ _ E3).
    destruct (js_truthy (property props "state_name")) eqn:E4.
    { now rewrite !(js_or_left (property props "state_name")) by exact E4. }
    rewrite (js_or_right _ _ E4).
    unfold js_or. cbn [js_truthy].
    destruct (is_empty code); reflexivity. }
  split; [exact E|]. split; [|split].
  - intros Hall. rewrite E.
    destruct (find js_truthy names) as [v|] eqn:F.
    + apply find_some in F. destruct F as [Hin Ht].
      apply js_toString_truthy; [exact Ht|].
      rewrite Forall_forall in Hall. now apply Hall.
    + cbn [js_toString]. eauto.
  - intros s Hs Hne. rewrite E. subst names. cbn [map find].
    rewrite Hs. cbn [js_truthy]. rewrite Hne. reflexivity.
  - intros fields Hf. rewrite E. subst names. cbn [map find].
    rewrite Hf. reflexivity.
Qed.

End Name.

End Features.

(** ** Aggregation, order of the keys and lookup *)

Section MoreAggregation.

Context {num : Type} `{JsNumber num}.

Variable formatCount : num -> string.
Variable formatSeverity : num -> string.

Local Open Scope string_scope.

(** Aggregation followed by lookup, in closed form: the lookup of any
    spelling of a state code returns the sum of the counts of the records of
    that state under the metric "count" and their weighted mean under any
    other metric; it returns 0 for the empty code and for a state without
    records. *)
Theorem getMetricValue_after_aggregation
    (data : list (AccidentRecord num)) (metric spelling : string) :
  getMetricValue (buildStateSummary data) metric spelling =
  if is_empty spelling then num_zero
  else match records_of (toUpperCase spelling) data with
       | [] => num_zero
       | rs => if String.eqb metric "count" then sum_counts rs
               else weighted_mean rs
       end.
Proof.
  unfold getMetricValue. rewrite get_buildStateSummary.
  rewrite is_empty_toUpperCase.
  destruct (is_empty spelling); [reflexivity|].
  destruct (records_of (toUpperCase spelling) data); reflexivity.
Qed.

Lemma has_existsb {V} (m : JsMap.t V) (k : string) :
  JsMap.has m k = existsb (String.eqb k) (JsMap.keys m).
Proof.
  unfold JsMap.has. induction m as [|[k' v] r IH]; simpl; auto.
  rewrite (String.eqb_sym k k').
  destruct (String.eqb k' k); simpl; auto.
Qed.

Lemma distinct_ext (l : list string) :
  forall seen seen',
    (forall k, existsb (String.eqb k) seen = existsb (String.eqb k) seen') ->
    distinct seen l = distinct seen' l.
Proof.
  induction l as [|k r IH]; intros seen seen' Hext; simpl; auto.
  rewrite (Hext k). destruct (existsb (String.eqb k) seen').
  - now apply IH.
  - f_equal. apply IH. intros k'. simpl. now rewrite Hext.
Qed.

Lemma keys_fold_distinct (data : list (AccidentRecord num)) :
  forall m : JsMap.t (Entry num),
    JsMap.keys (fold_left accumulate data m) =
    (JsMap.keys m ++ distinct (JsMap.keys m) (codes_of data))%list.
Proof.
  induction data as [|d data IH]; intros m; simpl.
  - now rewrite app_nil_r.
  - rewrite IH, accumulate_unfold. unfold codes_of. cbn [map filter].
    fold (codes_of data).
    destruct (is_empty (code_of d)) eqn:E; cbn [negb]; [reflexivity|].
    rewrite JsMapFacts.keys_set. cbn [distinct].
    rewrite <- has_existsb.
    destruct (JsMap.has m (code_of d)); [reflexivity|].
    rewrite <- app_assoc. cbn [app]. do 2 f_equal.
    apply distinct_ext. intros k. rewrite existsb_app. simpl.
    rewrite orb_false_r. apply orb_comm.
Qed.

(** The keys of the summary are the state codes of the input in the order of
    their first occurrence.  Hence the state selected after loading: "CA"
    when a record of California exists, else the state of the first record
    that has a code, else "CA". *)
Theorem summary_keys_in_order_of_first_occurrence
    (data : list (AccidentRecord num)) (features : list (Feature num)) :
  JsMap.keys (buildStateSummary data) = distinct [] (codes_of data) /\
  Ui.selectedState
    (Ui.on_load formatCount formatSeverity data features Ui.initial) =
    match records_of "CA" data with
    | [] => hd "CA" (codes_of data)
    | _ => "CA"
    end.
Proof.
  assert (Hkeys : JsMap.keys (buildStateSummary data)
                  = distinct [] (codes_of data)).
  { unfold buildStateSummary.
    rewrite JsMapFacts.keys_map_values, keys_fold_distinct. reflexivity. }
  split; [exact Hkeys|].
  destruct (on_load_state formatCount formatSeverity data features Ui.initial)
    as [_ ->].
  cbn [Ui.selectedState Ui.initial]. unfold Ui.default_selection, JsMap.has.
  rewrite get_buildStateSummary, Hkeys. cbn [is_empty].
  destruct (records_of "CA" data); [|reflexivity].
  destruct (codes_of data) as [|k r] eqn:E; [reflexivity|].
  cbn [distinct existsb hd].
  assert (Hk : In k (codes_of data)) by (rewrite E; now left).
  unfold codes_of in Hk. apply filter_In in Hk as [_ Hk].
  apply negb_true_iff in Hk. now rewrite Hk.
Qed.

Lemma accumulate_same_figures (m : JsMap.t (Entry num)) d d' :
  same_figures d d' -> accumulate m d = accumulate m d'.
Proof.
  intros (Hs & Hc & Ha). unfold accumulate. now rewrite Hs, Hc, Ha.
Qed.

(** The summary does not depend on [year] and [year_month]: two inputs whose
    records agree, one by one, on state, count and severity have the same
    summary. *)
Theorem buildStateSummary_ignores_dates
    (data data' : list (AccidentRecord num)) :
  Forall2 same_figures data data' ->
  buildStateSummary data = buildStateSummary data'.
Proof.
  intros Hsame. unfold buildStateSummary. f_equal.
  generalize (JsMap.empty : JsMap.t (Entry num)).
  induction Hsame as [|d d' data data' Hd _ IH]; intros m; simpl; auto.
  rewrite (accumulate_same_figures m d d' Hd). apply IH.
Qed.

End MoreAggregation.

(** ** The order of the records *)

Section Reordering.

Lemma exact_add_comm (x y : exact) : (x + y)%js = (y + x)%js.
Proof.
  destruct x as [a|], y as [b|]; cbn [num_add exact_number exact_lift2];
    auto. f_equal. apply Qcplus_comm.
Qed.

Lemma exact_add_assoc (x y z : exact) : (x + y + z)%js = (x + (y + z))%js.
Proof.
  destruct x as [a|], y as [b|], z as [c|];
    cbn [num_add exact_number exact_lift2]; auto.
  f_equal. symmetry. apply Qcplus_assoc.
Qed.

Lemma fold_add_permutation {A} (g : A -> exact) (l l' : list A) :
  Permutation l l' ->
  forall a : exact,
    fold_left (fun a d => (a + g d)%js) l a =
    fold_left (fun a d => (a + g d)%js) l' a.
Proof.
  induction 1 as [|x l l' _ IH|x y l|l l' l'' _ IH1 _ IH2]; intros a;
    cbn [fold_left].
  - reflexivity.
  - apply IH.
  - assert (E : (a + g x + g y)%js = (a + g y + g x)%js).
    { rewrite !exact_add_assoc. f_equal. apply exact_add_comm. }
    now rewrite E.
  - now rewrite IH1.
Qed.

Lemma filter_permutation {A} (f : A -> bool) (l l' : list A) :
  Permutation l l' -> Permutation (filter f l) (filter f l').
Proof.
  induction 1 as [|x l l' _ IH|x y l|l l' l'' _ IH1 _ IH2]; simpl.
  - constructor.
  - destruct (f x); auto.
  - destruct (f x), (f y); auto. constructor.
  - now apply perm_trans with (filter f l').
Qed.

(** In exact arithmetic the entry of every state is the same for every order
    of the records.  In binary64 it is not: the same three records give the
    total 2^53 when the large count comes first and 2^53 + 2 when it comes
    last. *)
Theorem summary_entries_and_order :
  (forall (data data' : list (AccidentRecord exact)) (code : string),
     Permutation data data' ->
     JsMap.get (buildStateSummary data) code =
     JsMap.get (buildStateSummary data') code) /\
  (Permutation large_first large_last /\
   getMetricValue (buildStateSummary large_first) "count" "TX" =
     9007199254740992%float /\
   getMetricValue (buildStateSummary large_last) "count" "TX" =
     9007199254740994%float).
Proof.
  split.
  - intros data data' code Hperm. rewrite !get_buildStateSummary.
    destruct (is_empty code); [reflexivity|].
    pose proof (filter_permutation
                  (fun d => String.eqb (code_of d) code) _ _ Hperm) as Hrs.
    fold (records_of code data) in Hrs. fold (records_of code data') in Hrs.
    assert (Hsum : sum_counts (records_of code data)
                   = sum_counts (records_of code data'))
      by now apply fold_add_permutation.
    assert (Hmean : weighted_mean (records_of code data)
                    = weighted_mean (records_of code data')).
    { unfold weighted_mean. rewrite Hsum. unfold sum_weighted.
      now rewrite (fold_add_permutation _ _ _ Hrs). }
    destruct (records_of code data) as [|r rs],
             (records_of code data') as [|r' rs']; auto.
    + now apply Permutation_nil_cons in Hrs.
    + apply Permutation_sym in Hrs. now apply Permutation_nil_cons in Hrs.
    + cbv beta iota zeta. now rewrite Hsum, Hmean.
  - split; [|split; reflexivity].
    unfold large_first, large_last.
    apply Permutation_cons_app with (l1 := [_; _]) (l2 := []).
    simpl. apply Permutation_refl.
Qed.

End Reordering.

(** ** What the handlers keep *)

Ltac page_simpl :=
  cbn [Ui.stateSummary Ui.currentMetric Ui.selectedState Ui.legendRange
       Ui.colorScale Ui.metric_description Ui.legend Ui.polygons
       Ui.fill Ui.datum Ui.selected fst snd].

Section Handlers.

Context {num : Type} `{JsNumber num}.

Variable formatCount : num -> string.
Variable formatSeverity : num -> string.

Local Open Scope string_scope.

(** The metric-change handler renders the page anew. *)
Lemma on_metric_change_render (value : string) (pg : Ui.Page num) :
  Ui.on_metric_change formatCount formatSeverity value pg =
  render formatCount formatSeverity (Ui.stateSummary pg)
    (Ui.selectedState pg) value (Ui.polygons pg).
Proof.
  unfold Ui.on_metric_change, Ui.updateMapColors, Ui.with_polygons,
    Ui.updateLegend, Ui.updateColorScale, Ui.updateMetricDescription, render.
  page_simpl.
  destruct (scale_for (Ui.stateSummary pg) value) as [scale range].
  reflexivity.
Qed.

Lemma map_paint_paint (S S' : JsMap.t (StateSummary num)) (m m' : string)
    (sc sc' : ColorScale num) (ps : list (Ui.Polygon num)) :
  map (paint S m sc) (map (paint S' m' sc') ps) = map (paint S m sc) ps.
Proof. rewrite map_map. reflexivity. Qed.

(** The last metric wins: a change of the metric leaves no trace of the
    metric, the scale, the legend and the fills that were there before. *)
Theorem on_metric_change_last_wins (value value' : string) (pg : Ui.Page num) :
  Ui.on_metric_change formatCount formatSeverity value'
    (Ui.on_metric_change formatCount formatSeverity value pg) =
  Ui.on_metric_change formatCount formatSeverity value' pg.
Proof.
  rewrite !on_metric_change_render.
  unfold render at 2 3 4. page_simpl.
  unfold render. now rewrite map_paint_paint.
Qed.

Lemma map_deselect_select_at (ps : list (Ui.Polygon num)) :
  forall i,
    map (Ui.classed_selected false) (Ui.select_at i ps) =
    map (Ui.classed_selected false) ps.
Proof.
  induction ps as [|p ps IH]; intros [|i]; simpl; auto.
  now rewrite IH.
Qed.

Lemma nth_error_select_at_datum (ps : list (Ui.Polygon num)) :
  forall i j,
    option_map Ui.datum (nth_error (Ui.select_at i ps) j) =
    option_map Ui.datum (nth_error ps j).
Proof.
  induction ps as [|p ps IH]; intros [|i] [|j]; simpl; auto.
Qed.

(** A click that takes effect, field by field. *)
Lemma on_click_effect (pg : Ui.Page num) (i : nat) (p : Ui.Polygon num) :
  nth_error (Ui.polygons pg) i = Some p ->
  is_empty (extractStateCode (Ui.datum p)) = false ->
  Ui.on_click i pg =
  {| Ui.stateSummary := Ui.stateSummary pg;
     Ui.selectedState := extractStateCode (Ui.datum p);
     Ui.currentMetric := Ui.currentMetric pg;
     Ui.legendRange := Ui.legendRange pg;
     Ui.colorScale := Ui.colorScale pg;
     Ui.metric_description := Ui.metric_description pg;
     Ui.legend := Ui.legend pg;
     Ui.polygons :=
       Ui.select_at i (map (Ui.classed_selected false) (Ui.polygons pg)) |}.
Proof. intros Hp Hcode. unfold Ui.on_click. now rewrite Hp, Hcode. Qed.

(** A click without effect: no such polygon, or a polygon without a code. *)
Lemma on_click_cases (pg : Ui.Page num) (i : nat) :
  Ui.on_click i pg = pg \/
  exists p, nth_error (Ui.polygons pg) i = Some p /\
            is_empty (extractStateCode (Ui.datum p)) = false.
Proof.
  unfold Ui.on_click.
  destruct (nth_error (Ui.polygons pg) i) as [p|]; [|now left].
  destruct (is_empty (extractStateCode (Ui.datum p))) eqn:E; [now left|].
  right. now exists p.
Qed.

(** The last click wins: a click on a polygon that has a state code gives the
    same page whatever was clicked before it. *)
Theorem on_click_last_wins (pg : Ui.Page num) (i j : nat) (q : Ui.Polygon num) :
  nth_error (Ui.polygons pg) j = Some q ->
  is_empty (extractStateCode (Ui.datum q)) = false ->
  Ui.on_click j (Ui.on_click i pg) = Ui.on_click j pg.
Proof.
  intros Hq Hcode.
  destruct (on_click_cases pg i) as [->|(p & Hp & Hpc)]; [reflexivity|].
  rewrite (on_click_effect pg i p Hp Hpc).
  set (ps := Ui.select_at i (map (Ui.classed_selected false) (Ui.polygons pg))).
  pose proof (nth_error_select_at_datum
                (map (Ui.classed_selected false) (Ui.polygons pg)) i j) as Hd.
  fold ps in Hd. rewrite nth_error_map, Hq in Hd. cbn [option_map] in Hd.
  destruct (nth_error ps j) as [q'|] eqn:Hq'; [|discriminate].
  cbn [option_map] in Hd. injection Hd as Hd.
  change (Ui.datum (Ui.classed_selected false q)) with (Ui.datum q) in Hd.
  rewrite (on_click_effect pg j q Hq Hcode).
  rewrite (on_click_effect _ j q'); page_simpl;
    [|exact Hq'|now rewrite Hd].
  rewrite Hd. f_equal. subst ps.
  rewrite map_deselect_select_at, map_map. reflexivity.
Qed.

End Handlers.

(** ** What stays true during a session *)

Section Invariants.

Context {num : Type} `{JsNumber num}.

Variable formatCount : num -> string.
Variable formatSeverity : num -> string.

Local Open Scope string_scope.

Lemma shows_metric_render (S : JsMap.t (StateSummary num)) (sel m : string)
    (ps : list (Ui.Polygon num)) :
  shows_metric formatCount formatSeverity
    (render formatCount formatSeverity S sel m ps).
Proof.
  unfold shows_metric, render. page_simpl.
  repeat (split; [reflexivity|]).
  rewrite Forall_map. apply Forall_forall. intros p _. reflexivity.
Qed.

Lemma shows_metric_on_metric_change (value : string) (pg : Ui.Page num) :
  shows_metric formatCount formatSeverity
    (Ui.on_metric_change formatCount formatSeverity value pg).
Proof. rewrite on_metric_change_render. apply shows_metric_render. Qed.

(** Loading renders the page with one polygon per feature. *)
Lemma on_load_render (data : list (AccidentRecord num))
    (features : list (Feature num)) (pg : Ui.Page num) :
  let sel :=
    Ui.default_selection (buildStateSummary data) (Ui.selectedState pg) in
  Ui.on_load formatCount formatSeverity data features pg =
  render formatCount formatSeverity (buildStateSummary data) sel
    (Ui.currentMetric pg)
    (map (fun d =>
            {| Ui.datum := d; Ui.fill := None;
               Ui.selected := String.eqb (extractStateCode d) sel |})
         features).
Proof.
  intros sel. subst sel.
  unfold Ui.on_load, Ui.initMap, Ui.with_polygons, Ui.updateLegend,
    Ui.updateColorScale, Ui.updateMetricDescription, render.
  page_simpl.
  destruct (scale_for (buildStateSummary data) (Ui.currentMetric pg))
    as [scale range].
  page_simpl. f_equal. rewrite !map_map. apply map_ext. intros d.
  unfold paint. page_simpl.
  destruct (String.eqb (extractStateCode d) _); reflexivity.
Qed.

Lemma shows_metric_on_load (data : list (AccidentRecord num))
    (features : list (Feature num)) (pg : Ui.Page num) :
  shows_metric formatCount formatSeverity
    (Ui.on_load formatCount formatSeverity data features pg).
Proof. rewrite on_load_render. apply shows_metric_render. Qed.

Lemma Forall_select_at (P : Ui.Polygon num -> Prop) (ps : list (Ui.Polygon num)) :
  (forall p b, P p -> P (Ui.classed_selected b p)) ->
  Forall P ps -> forall i, Forall P (Ui.select_at i ps).
Proof.
  intros HP. induction 1 as [|p ps Hp Hps IH]; intros [|i]; simpl;
    constructor; auto.
Qed.

Lemma Forall_deselect (P : Ui.Polygon num -> Prop) (ps : list (Ui.Polygon num)) :
  (forall p b, P p -> P (Ui.classed_selected b p)) ->
  Forall P ps -> Forall P (map (Ui.classed_selected false) ps).
Proof.
  intros HP Hall. rewrite Forall_map. revert Hall. apply Forall_impl.
  intros p. apply HP.
Qed.

Lemma shows_metric_on_click (i : nat) (pg : Ui.Page num) :
  shows_metric formatCount formatSeverity pg ->
  shows_metric formatCount formatSeverity (Ui.on_click i pg).
Proof.
  intros Hpg.
  destruct (on_click_cases pg i) as [->|(p & Hp & Hpc)]; [exact Hpg|].
  rewrite (on_click_effect pg i p Hp Hpc).
  destruct Hpg as (Hs & Hr & Hd & Hl & Hf).
  unfold shows_metric. page_simpl.
  split; [exact Hs|]. split; [exact Hr|]. split; [exact Hd|].
  split; [exact Hl|].
  apply Forall_select_at; [auto|]. apply Forall_deselect; auto.
Qed.

Lemma selection_matches_on_load (data : list (AccidentRecord num))
    (features : list (Feature num)) (pg : Ui.Page num) :
  selection_matches
    (Ui.on_load formatCount formatSeverity data features pg).
Proof.
  rewrite on_load_render. unfold selection_matches, render. page_simpl.
  rewrite !Forall_map. apply Forall_forall. intros d _.
  unfold paint. page_simpl. intros E. now apply String.eqb_eq in E.
Qed.

Lemma selection_matches_on_metric_change (value : string) (pg : Ui.Page num) :
  selection_matches pg ->
  selection_matches (Ui.on_metric_change formatCount formatSeverity value pg).
Proof.
  rewrite on_metric_change_render. unfold selection_matches, render.
  page_simpl. rewrite Forall_map. apply Forall_impl. intros p Hp. exact Hp.
Qed.

(** After a click that takes effect only the clicked polygon is selected. *)
Lemma on_click_effective (i : nat) (pg : Ui.Page num) (p : Ui.Polygon num) :
  nth_error (Ui.polygons pg) i = Some p ->
  is_empty (extractStateCode (Ui.datum p)) = false ->
  Ui.selected_count (Ui.on_click i pg) = 1%nat /\
  selection_matches (Ui.on_click i pg).
Proof.
  intros Hp Hcode. rewrite (on_click_effect pg i p Hp Hcode).
  unfold Ui.selected_count, selection_matches. page_simpl.
  destruct (select_at_deselected (Ui.polygons pg) i p Hp) as [Hcount Hall].
  split; [exact Hcount|].
  apply Forall_forall. intros q Hq Hsel.
  apply In_nth_error in Hq as [j Hj].
  destruct (Hall j q Hj) as [Hji Hdat].
  rewrite Hsel in Hji. symmetry in Hji. apply Nat.eqb_eq in Hji. subst j.
  rewrite nth_error_map, Hp in Hdat. cbn [option_map] in Hdat.
  now injection Hdat as ->.
Qed.

Lemma selection_matches_on_click (i : nat) (pg : Ui.Page num) :
  selection_matches pg -> selection_matches (Ui.on_click i pg).
Proof.
  intros Hpg.
  destruct (on_click_cases pg i) as [->|(p & Hp & Hpc)]; [exact Hpg|].
  now apply (on_click_effective i pg p).
Qed.

Lemma on_click_keeps (i : nat) (pg : Ui.Page num) :
  Ui.stateSummary (Ui.on_click i pg) = Ui.stateSummary pg /\
  map Ui.datum (Ui.polygons (Ui.on_click i pg)) =
    map Ui.datum (Ui.polygons pg).
Proof.
  destruct (on_click_cases pg i) as [->|(p & Hp & Hpc)]; [now split|].
  rewrite (on_click_effect pg i p Hp Hpc). page_simpl.
  split; [reflexivity|].
  apply nth_error_ext. intros j. rewrite !nth_error_map.
  rewrite nth_error_select_at_datum, nth_error_map.
  destruct (nth_error (Ui.polygons pg) j); reflexivity.
Qed.

Lemma on_metric_change_keeps (value : string) (pg : Ui.Page num) :
  Ui.stateSummary (Ui.on_metric_change formatCount formatSeverity value pg) =
    Ui.stateSummary pg /\
  map Ui.datum
    (Ui.polygons (Ui.on_metric_change formatCount formatSeverity value pg)) =
    map Ui.datum (Ui.polygons pg) /\
  Ui.selected_count
    (Ui.on_metric_change formatCount formatSeverity value pg) =
    Ui.selected_count pg.
Proof.
  rewrite on_metric_change_render. unfold render, Ui.selected_count.
  page_simpl. split; [reflexivity|]. split.
  - rewrite map_map. reflexivity.
  - induction (Ui.polygons pg) as [|p ps IH]; simpl; auto.
    destruct (Ui.selected p); simpl; now rewrite IH.
Qed.

Lemma filter_selected_map {A} (f : A -> Ui.Polygon num) (l : list A) :
  List.length (filter Ui.selected (map f l)) =
  List.length (filter (fun a => Ui.selected (f a)) l).
Proof.
  induction l as [|a l IH]; [reflexivity|]. cbn [map filter].
  destruct (Ui.selected (f a)); cbn [List.length]; now rewrite IH.
Qed.

Lemma on_load_datum (data : list (AccidentRecord num))
    (features : list (Feature num)) :
  map Ui.datum
    (Ui.polygons
       (Ui.on_load formatCount formatSeverity data features Ui.initial)) =
  features.
Proof.
  rewrite on_load_render. unfold render. page_simpl.
  rewrite !map_map. rewrite <- (map_id features) at 2.
  apply map_ext. intros d. reflexivity.
Qed.

(** After loading there is one polygon per feature, in the order of the
    features, and the selected polygons are exactly those of the selected
    state: none when no feature has that code, several when several features
    share it. *)
Theorem on_load_draws_every_feature (data : list (AccidentRecord num))
    (features : list (Feature num)) :
  let pg := Ui.on_load formatCount formatSeverity data features Ui.initial in
  map Ui.datum (Ui.polygons pg) = features /\
  Forall
    (fun p =>
       Ui.selected p =
       String.eqb (extractStateCode (Ui.datum p)) (Ui.selectedState pg))
    (Ui.polygons pg) /\
  Ui.selected_count pg =
    List.length
      (filter
         (fun d => String.eqb (extractStateCode d) (Ui.selectedState pg))
         features).
Proof.
  intros pg. subst pg. rewrite on_load_render.
  unfold render, Ui.selected_count. page_simpl.
  set (sel := Ui.default_selection (buildStateSummary data) "CA").
  split; [|split].
  - rewrite !map_map. rewrite <- (map_id features) at 2.
    apply map_ext. intros d. reflexivity.
  - rewrite !Forall_map. apply Forall_forall. intros d _. reflexivity.
  - rewrite map_map, filter_selected_map. reflexivity.
Qed.

End Invariants.

(** ** Tooltip *)

Section TooltipFacts.

Context {num : Type} `{JsNumber num}.

Variable numberToString : num -> string.
Variable formatNumber : num -> string.
Variable formatSeverity : num -> string.

Local Open Scope string_scope.

Lemma records_of_other_spelling (data : list (AccidentRecord num)) code :
  toUpperCase code <> code -> records_of code data = [].
Proof.
  intros Hne. unfold records_of.
  induction data as [|d data IH]; simpl; auto.
  destruct (String.eqb_spec (code_of d) code) as [E|E]; auto.
  exfalso. apply Hne. rewrite <- E. apply toUpperCase_idempotent.
Qed.

(** The tooltip looks the code up as it stands, while the fill looks up its
    upper-case form.  The tooltip of a feature shows the totals of the state
    whose key is the feature's code letter for letter, and "No data" for
    every other feature; so for a code that is not in upper case it always
    shows "No data", even when the polygon is painted with the value of that
    state. *)
Theorem tooltip_html_after_aggregation
    (data : list (AccidentRecord num)) (d : Feature num) (name : string) :
  extractStateName numberToString d = Some name ->
  let code := extractStateCode d in
  tooltip_html numberToString formatNumber formatSeverity
    (buildStateSummary data) d =
    Some (if is_empty code then tooltip_no_data name
          else match records_of code data with
               | [] => tooltip_no_data name
               | rs =>
                   tooltip_with_data formatNumber formatSeverity name code
                     {| totalCount := sum_counts rs;
                        avgSeverity := weighted_mean rs |}
               end) /\
  (toUpperCase code <> code ->
   tooltip_html numberToString formatNumber formatSeverity
     (buildStateSummary data) d = Some (tooltip_no_data name) /\
   forall metric,
     getMetricValue (buildStateSummary data) metric code =
     getMetricValue (buildStateSummary data) metric (toUpperCase code)).
Proof.
  intros Hname code.
  assert (Hhtml :
    tooltip_html numberToString formatNumber formatSeverity
      (buildStateSummary data) d =
    Some (if is_empty code then tooltip_no_data name
          else match records_of code data with
               | [] => tooltip_no_data name
               | rs =>
                   tooltip_with_data formatNumber formatSeverity name code
                     {| totalCount := sum_counts rs;
                        avgSeverity := weighted_mean rs |}
               end)).
  { unfold tooltip_html. rewrite Hname. fold code.
    rewrite get_buildStateSummary.
    destruct (is_empty code); [reflexivity|].
    destruct (records_of code data); reflexivity. }
  split; [exact Hhtml|].
  intros Hne. split.
  - rewrite Hhtml, (records_of_other_spelling data code Hne).
    destruct (is_empty code); reflexivity.
  - intros metric. unfold getMetricValue.
    now rewrite toUpperCase_idempotent.
Qed.

End TooltipFacts.

(** ** Sessions *)

Section SessionFacts.

Variable numberToString : float -> string.
Variable formatCount : float -> string.
Variable formatSeverity : float -> string.

Local Open Scope string_scope.

Local Notation step :=
  (Session.step numberToString formatCount formatSeverity) (only parsing).
Local Notation run :=
  (Session.run numberToString formatCount formatSeverity) (only parsing).
Local Notation start :=
  (Session.start formatCount formatSeverity) (only parsing).
Local Notation ok := (session_ok formatCount formatSeverity) (only parsing).

Lemma set_stroke_length (w : string) (widths : list string) :
  forall i, List.length (Session.set_stroke i w widths) = List.length widths.
Proof. induction widths as [|x r IH]; intros [|i]; simpl; auto. Qed.

Lemma set_stroke_Forall (P : string -> Prop) (w : string)
    (widths : list string) :
  P w -> Forall P widths -> forall i, Forall P (Session.set_stroke i w widths).
Proof.
  intros Hw. induction 1 as [|x r Hx Hr IH]; intros [|i]; simpl;
    constructor; auto.
Qed.

Lemma set_stroke_back (w w' : string) (widths : list string) :
  forall i,
    nth_error widths i = Some w ->
    Session.set_stroke i w (Session.set_stroke i w' widths) = widths.
Proof.
  induction widths as [|x r IH]; intros [|i]; simpl; try discriminate.
  - now intros [= ->].
  - intros Hi. now rewrite IH.
Qed.

(** The pointer events leave the page alone. *)
Lemma pointer_keeps_page (v : Session.View) (i : nat) (x y : float) :
  Session.page (Session.mouseover numberToString formatCount formatSeverity
                  i x y v) = Session.page v /\
  Session.page (Session.mousemove numberToString x y v) = Session.page v /\
  Session.page (Session.mouseout i v) = Session.page v.
Proof.
  unfold Session.mouseover, Session.mousemove, Session.mouseout.
  destruct (nth_error (Ui.polygons (Session.page v)) i) as [p|].
  - destruct (tooltip_html _ _ _ _ _); repeat split.
  - repeat split.
Qed.

Lemma start_ok (data : list (AccidentRecord float))
    (features : list (Feature float)) :
  ok data features (start data features).
Proof.
  unfold session_ok, Session.start. cbn [Session.page Session.stroke_width].
  destruct (on_load_state formatCount formatSeverity data features Ui.initial)
    as [Hsum _].
  split; [exact Hsum|].
  split; [apply (on_load_datum formatCount formatSeverity)|].
  split; [apply shows_metric_on_load|].
  split; [apply selection_matches_on_load|].
  split; [apply length_map|].
  rewrite Forall_map. apply Forall_forall. intros d _. now left.
Qed.

Lemma step_ok (data : list (AccidentRecord float))
    (features : list (Feature float)) (v : Session.View)
    (e : Session.Event) :
  ok data features v -> ok data features (step v e).
Proof.
  intros (Hsum & Hdat & Hshow & Hsel & Hlen & Hw).
  destruct e as [value|i|i x y|x y|i]; cbn [Session.step].
  - unfold session_ok, Session.with_page.
    cbn [Session.page Session.stroke_width].
    destruct (on_metric_change_keeps formatCount formatSeverity value
                (Session.page v)) as (Hs & Hd & _).
    rewrite Hs, Hd.
    split; [exact Hsum|]. split; [exact Hdat|].
    split; [apply shows_metric_on_metric_change|].
    split; [now apply selection_matches_on_metric_change|].
    now split.
  - unfold session_ok, Session.with_page.
    cbn [Session.page Session.stroke_width].
    destruct (on_click_keeps i (Session.page v)) as (Hs & Hd).
    rewrite Hs, Hd.
    split; [exact Hsum|]. split; [exact Hdat|].
    split; [now apply shows_metric_on_click|].
    split; [now apply selection_matches_on_click|].
    now split.
  - unfold session_ok.
    destruct (pointer_keeps_page v i x y) as (-> & _ & _).
    repeat (split; [assumption|]).
    unfold Session.mouseover.
    destruct (nth_error (Ui.polygons (Session.page v)) i); [|now split].
    destruct (tooltip_html _ _ _ _ _); [|now split].
    cbn [Session.stroke_width]. rewrite set_stroke_length.
    split; [exact Hlen|]. apply set_stroke_Forall; auto.
  - unfold session_ok, Session.mousemove.
    cbn [Session.page Session.stroke_width]. repeat (split; [assumption|]).
    assumption.
  - unfold session_ok.
    destruct (pointer_keeps_page v i 0%float 0%float) as (_ & _ & ->).
    repeat (split; [assumption|]).
    unfold Session.mouseout.
    destruct (nth_error (Ui.polygons (Session.page v)) i); [|now split].
    cbn [Session.stroke_width]. rewrite set_stroke_length.
    split; [exact Hlen|]. apply set_stroke_Forall; auto.
Qed.

Lemma run_ok (data : list (AccidentRecord float))
    (features : list (Feature float)) (events : list Session.Event) :
  forall v, ok data features v -> ok data features (run events v).
Proof.
  induction events as [|e events IH]; intros v Hv; simpl; auto.
  apply IH. now apply step_ok.
Qed.

(** Whatever the user does after loading (changes of the metric, clicks,
    pointer movements, in any order), the summary and the features bound to
    the polygons stay those of the start, the scale, the legend, the
    description and every fill are those of the current metric, every
    selected polygon is one of the selected state, and every border is 0.7
    or 1.5 wide. *)
Theorem session_stays_consistent (data : list (AccidentRecord float))
    (features : list (Feature float)) (events : list Session.Event) :
  session_ok formatCount formatSeverity data features
    (run events (start data features)).
Proof. apply run_ok, start_ok. Qed.

Lemma step_keeps_single_selection (v : Session.View) (e : Session.Event) :
  Ui.selected_count (Session.page v) = 1%nat ->
  Ui.selected_count (Session.page (step v e)) = 1%nat.
Proof.
  intros Hone. destruct e as [value|i|i x y|x y|i]; cbn [Session.step].
  - cbn [Session.with_page Session.page].
    destruct (on_metric_change_keeps formatCount formatSeverity value
                (Session.page v)) as (_ & _ & ->). exact Hone.
  - cbn [Session.with_page Session.page].
    destruct (nth_error (Ui.polygons (Session.page v)) i) as [p|] eqn:Hp.
    + destruct (is_empty (extractStateCode (Ui.datum p))) eqn:Hcode.
      * unfold Ui.on_click. now rewrite Hp, Hcode.
      * now apply (on_click_effective i (Session.page v) p).
    + unfold Ui.on_click. now rewrite Hp.
  - now destruct (pointer_keeps_page v i x y) as (-> & _ & _).
  - exact Hone.
  - now destruct (pointer_keeps_page v i 0%float 0%float) as (_ & _ & ->).
Qed.

Lemma run_app (events events' : list Session.Event) (v : Session.View) :
  run (events ++ events')%list v = run events' (run events v).
Proof. apply fold_left_app. Qed.

(** Once the user has clicked a polygon that has a state code, exactly one
    polygon is selected, whatever happened before and whatever happens
    after. *)
Theorem one_selection_after_a_click (data : list (AccidentRecord float))
    (features : list (Feature float)) (before after : list Session.Event)
    (i : nat) (d : Feature float) :
  nth_error features i = Some d ->
  is_empty (extractStateCode d) = false ->
  Ui.selected_count
    (Session.page
       (run (before ++ Session.Click i :: after)%list (start data features)))
  = 1%nat.
Proof.
  intros Hd Hcode. rewrite run_app. cbn [Session.run fold_left].
  fold (run after).
  set (v := run before (start data features)).
  assert (Hv : ok data features v) by apply run_ok, start_ok.
  destruct Hv as (_ & Hdat & _).
  assert (Hp : exists p, nth_error (Ui.polygons (Session.page v)) i = Some p
                         /\ Ui.datum p = d).
  { rewrite <- Hdat, nth_error_map in Hd.
    destruct (nth_error (Ui.polygons (Session.page v)) i) as [p|];
      [|discriminate].
    exists p. split; [reflexivity|]. now injection Hd. }
  destruct Hp as (p & Hp & <-).
  assert (Hone : Ui.selected_count
                   (Session.page (step v (Session.Click i))) = 1%nat).
  { cbn [Session.step Session.with_page Session.page].
    now apply (on_click_effective i (Session.page v) p). }
  generalize dependent (step v (Session.Click i)). clear.
  induction after as [|e after IH]; intros w Hone; simpl; auto.
  apply IH. now apply step_keeps_single_selection.
Qed.

Lemma set_stroke_same (w : string) (widths : list string) :
  forall i,
    nth_error widths i = Some w -> Session.set_stroke i w widths = widths.
Proof.
  induction widths as [|x r IH]; intros [|i]; simpl; try discriminate.
  - now intros [= ->].
  - intros Hi. now rewrite IH.
Qed.

(** Moving the pointer onto a polygon and off it again changes nothing but
    the tooltip: the page is as before, the border is thin again, and the
    tooltip is hidden.  It holds the text of that polygon; when the name of
    the polygon cannot be made a string, the [mouseover] listener stops
    before it changes anything and the tooltip keeps the text it had. *)
Theorem mouseover_then_mouseout (v : Session.View) (i : nat) (x y : float)
    (p : Ui.Polygon float) :
  nth_error (Ui.polygons (Session.page v)) i = Some p ->
  nth_error (Session.stroke_width v) i = Some "0.7" ->
  let v' :=
    Session.mouseout i
      (Session.mouseover numberToString formatCount formatSeverity i x y v) in
  Session.page v' = Session.page v /\
  Session.stroke_width v' = Session.stroke_width v /\
  Session.opacity (Session.tooltip v') = "0" /\
  Session.html (Session.tooltip v') =
    match tooltip_html numberToString formatCount formatSeverity
            (Ui.stateSummary (Session.page v)) (Ui.datum p) with
    | Some text => text
    | None => Session.html (Session.tooltip v)
    end.
Proof.
  intros Hp Hw v'. subst v'. unfold Session.mouseover. rewrite Hp.
  destruct (tooltip_html numberToString formatCount formatSeverity
              (Ui.stateSummary (Session.page v)) (Ui.datum p)) as [text|].
  - unfold Session.mouseout. cbn [Session.page]. rewrite Hp.
    cbn [Session.page Session.stroke_width Session.tooltip
         Session.hideTooltip Session.showTooltip Session.opacity
         Session.html].
    split; [reflexivity|]. split; [now apply set_stroke_back|].
    split; reflexivity.
  - unfold Session.mouseout. rewrite Hp.
    cbn [Session.page Session.stroke_width Session.tooltip
         Session.hideTooltip Session.opacity Session.html].
    split; [reflexivity|]. split; [now apply set_stroke_same|].
    split; reflexivity.
Qed.

End SessionFacts.

(** ** The legend range and the values of the states *)

Section LegendRange.

Context {num : Type} `{JsNumberOrder num}.

Local Open Scope string_scope.

Lemma get_in_values {V} (m : JsMap.t V) (k : string) (v : V) :
  JsMap.get m k = Some v -> In v (JsMap.values m).
Proof.
  induction m as [|[k' v'] r IH]; simpl; [discriminate|].
  destruct (String.eqb k' k).
  - intros [= ->]. now left.
  - intros E. right. now apply IH.
Qed.

Lemma scale_for_other_metric (summary : JsMap.t (StateSummary num))
    (metric : string) :
  String.eqb metric "count" = false ->
  scale_for summary metric = scale_for summary "severity".
Proof. intros E. unfold scale_for. now rewrite E. Qed.

(** The legend range brackets every state: when the values of the current
    metric are finite, the value of every state of the summary lies between
    the minimum and the maximum that the legend shows. *)
Theorem legend_range_brackets (summary : JsMap.t (StateSummary num))
    (metric k : string) (s : StateSummary num) :
  JsMap.get summary k = Some s ->
  Forall (fun s' => isFinite (metric_of metric s') = true)
    (JsMap.values summary) ->
  (min (snd (scale_for summary metric)) <=? metric_of metric s)%js = true /\
  (metric_of metric s <=? max (snd (scale_for summary metric)))%js = true.
Proof.
  intros Hget Hfin.
  assert (Hin : In s (JsMap.values summary)) by now apply get_in_values in Hget.
  assert (Hne : summary <> []) by (intros ->; discriminate).
  unfold metric_of in *.
  destruct (String.eqb metric "count") eqn:Em.
  - apply String.eqb_eq in Em. subst metric.
    destruct (proj2 (count_scale_any_number summary) Hne Hfin)
      as (lo & hi & [_ Hmin] & [_ Hmax] & -> & _).
    cbn [min max]. split.
    + apply Hmin. now apply in_map.
    + apply Hmax. now apply in_map.
  - rewrite (scale_for_other_metric summary metric Em).
    destruct (extent_finite (map severity_or_zero (JsMap.values summary)))
      as (lo & hi & E & Hmin & Hmax & Hlo & Hhi & Hle).
    { now apply map_nonempty, values_nonempty. }
    { rewrite Forall_map. revert Hfin. apply Forall_impl.
      apply severity_or_zero_finite. }
    rewrite (scale_for_severity summary lo hi E Hlo Hhi). cbn [snd min max].
    destruct (severities_least _ lo Hfin Hmin) as [_ Hleast].
    destruct (severities_greatest _ hi Hfin Hmax) as [_ Hgreatest].
    split.
    + apply Hleast. now apply in_map.
    + apply Hgreatest. now apply in_map.
Qed.

End LegendRange.

(** ** Metrics other than "count" *)

Section OtherMetrics.

Context {num : Type} `{JsNumber num}.

Variable formatCount : num -> string.
Variable formatSeverity : num -> string.

Local Open Scope string_scope.

(** Every value of the selector other than "count" is shown as the severity:
    the scale, the legend range, the legend, the description and the fills
    are those of "severity". *)
Theorem other_metrics_show_severity (value : string) (pg : Ui.Page num) :
  String.eqb value "count" = false ->
  let shown := Ui.on_metric_change formatCount formatSeverity value pg in
  let severity :=
    Ui.on_metric_change formatCount formatSeverity "severity" pg in
  Ui.currentMetric shown = value /\
  Ui.colorScale shown = Ui.colorScale severity /\
  Ui.legendRange shown = Ui.legendRange severity /\
  Ui.legend shown = Ui.legend severity /\
  Ui.metric_description shown = Ui.metric_description severity /\
  Ui.polygons shown = Ui.polygons severity.
Proof.
  intros E shown severity. subst shown severity.
  rewrite !on_metric_change_render. unfold render. page_simpl.
  rewrite (scale_for_other_metric (Ui.stateSummary pg) value E).
  split; [reflexivity|]. split; [reflexivity|]. split; [reflexivity|].
  split; [|split].
  - unfold legend_for, Ui.updateLegend. page_simpl. now rewrite E.
  - unfold description_for, Ui.updateMetricDescription. page_simpl.
    now rewrite E.
  - apply map_ext. intros p. unfold paint, getMetricValue. now rewrite E.
Qed.

End OtherMetrics.

(** ** Counts that are not numbers *)

Section NotANumber.

Local Open Scope string_scope.

Lemma float_nan_key (x : float) :
  (x =? x)%float = false <-> Prim2SF x = S754_nan.
Proof.
  split.
  - intros E. destruct (Prim2SF x) as [s|s| |s m e] eqn:P; auto;
      exfalso; assert (Ht : (x =? x)%float = true)
        by (apply float_eqb_key; rewrite P; eexists; split; reflexivity);
      congruence.
  - intros P. destruct (x =? x)%float eqn:E; auto.
    apply float_eqb_key in E as (a & Ha & _). rewrite P in Ha. discriminate.
Qed.

Lemma float_add_nan (x y : float) :
  (x =? x)%float = false \/ (y =? y)%float = false ->
  (x + y =? x + y)%float = false.
Proof.
  rewrite !float_nan_key, add_spec. intros [-> | ->].
  - reflexivity.
  - destruct (Prim2SF x); reflexivity.
Qed.

Lemma float_ltb_nan (x y : float) :
  (y =? y)%float = false -> (x <? y)%float = false.
Proof.
  rewrite float_nan_key. intros P.
  destruct (x <? y)%float eqn:E; auto.
  apply float_ltb_key in E as (a & b & _ & Hb & _).
  rewrite P in Hb. discriminate.
Qed.

Lemma fold_counts_from_nan (rs : list (AccidentRecord float)) :
  forall t : float,
    (t =? t)%float = false ->
    let total := fold_left (fun a d => (a + count_accidents d)%js) rs t in
    (total =? total)%float = false.
Proof.
  induction rs as [|d rs IH]; intros t Ht; simpl; auto.
  apply IH. apply float_add_nan. now left.
Qed.

Lemma fold_counts_with_nan (rs : list (AccidentRecord float)) d :
  In d rs ->
  (count_accidents d =? count_accidents d)%float = false ->
  forall t : float,
    let total := fold_left (fun a d => (a + count_accidents d)%js) rs t in
    (total =? total)%float = false.
Proof.
  intros Hin Hd. induction rs as [|r rs IH]; intros t; [contradiction|].
  destruct Hin as [->|Hin]; simpl.
  - apply fold_counts_from_nan. apply float_add_nan. now right.
  - now apply IH.
Qed.

(** One count that is not a number (the result of unary plus on text that is
    not numeric) spoils its state: the total of the state is NaN, its average
    is 0, and so is every lookup of its severity. *)
Theorem nan_count_spoils_the_state (data : list (AccidentRecord float))
    (d : AccidentRecord float) (s : StateSummary float) :
  In d data ->
  (count_accidents d =? count_accidents d)%float = false ->
  JsMap.get (buildStateSummary data) (code_of d) = Some s ->
  (totalCount s =? totalCount s)%float = false /\
  avgSeverity s = 0%float /\
  getMetricValue (buildStateSummary data) "severity" (code_of d) = 0%float.
Proof.
  intros Hin Hnan Hget.
  assert (Hs : (totalCount s =? totalCount s)%float = false
               /\ avgSeverity s = 0%float).
  { rewrite get_buildStateSummary in Hget.
    destruct (is_empty (code_of d)); [discriminate|].
    pose proof (records_of_in data d Hin) as Hrs.
    destruct (records_of (code_of d) data) as [|r rs] eqn:E; [discriminate|].
    injection Hget as <-. cbn [totalCount avgSeverity].
    assert (Ht : (sum_counts (r :: rs) =? sum_counts (r :: rs))%float = false)
      by exact (fold_counts_with_nan (r :: rs) d Hrs Hnan 0%float).
    split; [exact Ht|].
    unfold weighted_mean.
    change (num_zero <? sum_counts (r :: rs))%js
      with (0 <? sum_counts (r :: rs))%float.
    now rewrite (float_ltb_nan 0 _ Ht). }
  split; [apply Hs|]. split; [apply Hs|].
  unfold getMetricValue. unfold code_of at 1.
  rewrite toUpperCase_idempotent. fold (code_of d). rewrite Hget.
  cbn. apply Hs.
Qed.

End NotANumber.

(** ** The further properties at concrete inputs *)

Example extractStateName_examples :
  extractStateName formatSeverity_d3 (named_feature "Texas" "TX") =
    Some "Texas"%string /\
  extractStateName formatSeverity_d3 {| properties := None |} =
    Some "State"%string /\
  extractStateName formatSeverity_d3 array_named_feature =
    Some "New,,York"%string /\
  extractStateName formatSeverity_d3 object_named_feature = None.
Proof. repeat split. Qed.

(** The pointer on a polygon whose name cannot be made a string: the
    listener throws before it touches the border or the tooltip. *)
Example mouseover_that_throws :
  let v :=
    Session.start formatSeverity_d3 formatSeverity_d3 tx_binary64
      [ object_named_feature ] in
  Session.mouseover formatSeverity_d3 formatSeverity_d3 formatSeverity_d3
    0 100%float 50%float v = v.
Proof. reflexivity. Qed.

Lemma extractStateCode_first_usable_witness :
  extractStateCode
    {| properties :=
         Some [ ("STATE"%string, JsString " CA "%string);
                ("STUSPS10"%string, JsString "  "%string);
                ("postal"%string, JsNumberValue 6%float);
                ("code"%string, JsString "ca"%string) ] |}
  = trim " CA ".
Proof.
  apply (extractStateCode_first_usable _
           [ "STUSPS"; "STUSPS10"; "state_code" ]%string
           [ "CODE"; "code"; "postal"; "postalCode" ]%string
           "STATE"%string " CA "%string).
  - reflexivity.
  - repeat constructor.
  - reflexivity.
  - reflexivity.
Defined.

Lemma buildStateSummary_ignores_dates_witness :
  buildStateSummary tx_binary64 =
  buildStateSummary
    (tx_records 100%float 2%float 50%float 4%float None None nan 1999%float).
Proof.
  apply buildStateSummary_ignores_dates.
  repeat constructor.
Defined.

Lemma on_click_last_wins_witness :
  Ui.on_click 2 (Ui.on_click 0 clickable_page) = Ui.on_click 2 clickable_page.
Proof.
  apply (on_click_last_wins clickable_page 0 2
           {| Ui.datum := feature_of "STATE" " CA "; Ui.fill := None;
              Ui.selected := false |}).
  - reflexivity.
  - reflexivity.
Defined.

Lemma legend_range_brackets_witness :
  (min (snd (scale_for three_states "severity")) <=?
   metric_of "severity"
     {| totalCount := 480%float; avgSeverity := 2.5%float |})%js = true /\
  (metric_of "severity"
     {| totalCount := 480%float; avgSeverity := 2.5%float |} <=?
   max (snd (scale_for three_states "severity")))%js = true.
Proof.
  apply (legend_range_brackets three_states "severity" "NY").
  - reflexivity.
  - repeat constructor.
Defined.

Lemma tooltip_html_after_aggregation_witness :
  let d := named_feature "California" "ca" in
  let code := extractStateCode d in
  tooltip_html formatSeverity_d3 formatSeverity_d3 formatSeverity_d3
    (buildStateSummary ca_records) d =
    Some (if is_empty code then tooltip_no_data "California"
          else match records_of code ca_records with
               | [] => tooltip_no_data "California"
               | rs =>
                   tooltip_with_data formatSeverity_d3 formatSeverity_d3
                     "California" code
                     {| totalCount := sum_counts rs;
                        avgSeverity := weighted_mean rs |}
               end) /\
  (toUpperCase code <> code ->
   tooltip_html formatSeverity_d3 formatSeverity_d3 formatSeverity_d3
     (buildStateSummary ca_records) d = Some (tooltip_no_data "California") /\
   forall metric,
     getMetricValue (buildStateSummary ca_records) metric code =
     getMetricValue (buildStateSummary ca_records) metric (toUpperCase code)).
Proof.
  intros d.
  apply (tooltip_html_after_aggregation formatSeverity_d3 formatSeverity_d3
           formatSeverity_d3 ca_records d "California").
  reflexivity.
Defined.

(** The lower-case feature is painted with California's total and its
    tooltip says "No data". *)
Example lower_case_code_painted_without_tooltip :
  let d := named_feature "California" "ca" in
  getMetricValue (buildStateSummary ca_records) "count" (extractStateCode d)
    = 12%float /\
  tooltip_html formatSeverity_d3 formatSeverity_d3 formatSeverity_d3
    (buildStateSummary ca_records) d
    = Some "<strong>California</strong><br/>No data"%string.
Proof. split; reflexivity. Qed.

Lemma one_selection_after_a_click_witness :
  Ui.selected_count
    (Session.page
       (Session.run formatSeverity_d3 formatSeverity_d3 formatSeverity_d3
          ([ Session.Change "severity"; Session.MouseOver 1 10%float 20%float ]
           ++ Session.Click 0
           :: [ Session.Change "count"; Session.Click 2; Session.MouseOut 1 ])
          (Session.start formatSeverity_d3 formatSeverity_d3
             ca_records some_features)))
  = 1%nat.
Proof.
  apply (one_selection_after_a_click formatSeverity_d3 formatSeverity_d3
           formatSeverity_d3 ca_records some_features _ _ 0
           (named_feature "Texas" "TX")).
  - reflexivity.
  - reflexivity.
Defined.

Lemma mouseover_then_mouseout_witness :
  let v :=
    Session.start formatSeverity_d3 formatSeverity_d3 tx_binary64
      some_features in
  let p :=
    paint (buildStateSummary tx_binary64) "count"
      (fst (scale_for (buildStateSummary tx_binary64) "count"))
      {| Ui.datum := named_feature "Texas" "TX"; Ui.fill := None;
         Ui.selected := true |} in
  let v' :=
    Session.mouseout 0
      (Session.mouseover formatSeverity_d3 formatSeverity_d3
         formatSeverity_d3 0 100%float 50%float v) in
  Session.page v' = Session.page v /\
  Session.stroke_width v' = Session.stroke_width v /\
  Session.opacity (Session.tooltip v') = "0"%string /\
  Session.html (Session.tooltip v') =
    match tooltip_html formatSeverity_d3 formatSeverity_d3 formatSeverity_d3
            (Ui.stateSummary (Session.page v)) (Ui.datum p) with
    | Some text => text
    | None => Session.html (Session.tooltip v)
    end.
Proof.
  intros v p.
  apply (mouseover_then_mouseout formatSeverity_d3 formatSeverity_d3
           formatSeverity_d3 v 0 100%float 50%float p).
  - reflexivity.
  - reflexivity.
Defined.

Lemma other_metrics_show_severity_witness :
  let shown :=
    Ui.on_metric_change formatSeverity_d3 formatSeverity_d3 "" page_2_5 in
  let severity :=
    Ui.on_metric_change formatSeverity_d3 formatSeverity_d3 "severity"
      page_2_5 in
  Ui.currentMetric shown = ""%string /\
  Ui.colorScale shown = Ui.colorScale severity /\
  Ui.legendRange shown = Ui.legendRange severity /\
  Ui.legend shown = Ui.legend severity /\
  Ui.metric_description shown = Ui.metric_description severity /\
  Ui.polygons shown = Ui.polygons severity.
Proof.
  apply (other_metrics_show_severity formatSeverity_d3 formatSeverity_d3
           "" page_2_5).
  reflexivity.
Defined.

Lemma nan_count_spoils_the_state_witness :
  let d := tx_count nan in
  let s := {| totalCount := nan; avgSeverity := 0%float |} in
  (totalCount s =? totalCount s)%float = false /\
  avgSeverity s = 0%float /\
  getMetricValue (buildStateSummary (tx_count 100%float :: d :: tx_binary64))
    "severity" (code_of d) = 0%float.
Proof.
  intros d s.
  apply (nan_count_spoils_the_state (tx_count 100%float :: d :: tx_binary64)
           d s).
  - right. now left.
  - reflexivity.
  - reflexivity.
Defined.
